(** * KindleNRead: the RSS-to-Kindle scripts, embedded and verified

    Two scripts live in [src/rss_converter]:
    - [rss_to_kindle.py]: feed -> scraped article text -> PDF -> e-mail;
    - [RSS_script.py]: feeds -> age filter -> newspaper text -> EPUB -> e-mail.

    Both are embedded below as Rocq functions.  Pure Python code becomes a
    pure function; code that prints, writes files, talks SMTP or may raise
    runs in the monad [M] over the record [sys].  Everything the scripts
    obtain from the network or from a rendering library is read from the
    record [World]. *)

From Stdlib Require Import ZArith Ascii String List Lia Bool.
From stdpp Require Import base option list strings gmap pretty.

Set Warnings "-register-all".
Local Open Scope string_scope.
Local Open Scope Z_scope.

(** ** Python built-ins used by the scripts *)
Module Py.

(** The character written [\n] inside a Python literal: U+000A. *)
Definition LF : ascii := ascii_of_nat 10.
Definition BACKSLASH : ascii := ascii_of_nat 92.

(** The literal ['\\n'] of [rss_to_kindle.py]: the escape [\\] is one
    backslash, so the literal denotes TWO characters, a backslash and the
    letter n. *)
Definition lit_backslash_n : string := String BACKSLASH (String "n" EmptyString).

(** The literal ['\n'], equal to [chr(10)]. *)
Definition lit_newline : string := String LF EmptyString.

(** [str.isspace] on one ASCII character: TAB, LF, VT, FF, CR, the four
    separators FS GS RS US, and the space. *)
Definition isspace (c : ascii) : bool :=
  let n := nat_of_ascii c in
  ((9 <=? n)%nat && (n <=? 13)%nat) || ((28 <=? n)%nat && (n <=? 32)%nat).

Fixpoint lstrip (s : string) : string :=
  match s with
  | String c s' => if isspace c then lstrip s' else s
  | EmptyString => EmptyString
  end.

(** [rstrip] keeps a character when it is not a space or when something
    survives to its right. *)
Fixpoint rstrip (s : string) : string :=
  match s with
  | String c s' =>
      match rstrip s' with
      | EmptyString => if isspace c then EmptyString else String c EmptyString
      | r => String c r
      end
  | EmptyString => EmptyString
  end.

(** [s.strip()] *)
Definition strip (s : string) : string := rstrip (lstrip s).

(** [sep.join(parts)] *)
Fixpoint join (sep : string) (parts : list string) : string :=
  match parts with
  | [] => EmptyString
  | [p] => p
  | p :: rest => p ++ sep ++ join sep rest
  end.

(** [s.startswith(p)] *)
Fixpoint startswith (p s : string) : bool :=
  match p, s with
  | EmptyString, _ => true
  | String a p', String b s' => if Ascii.eqb a b then startswith p' s' else false
  | String _ _, EmptyString => false
  end.

(** [s.replace(old, new)] for a non-empty [old]: scan left to right, and at
    each occurrence emit [new] and skip the rest of the occurrence.  [skip]
    counts the characters of the current occurrence still to be passed. *)
Fixpoint replace_from (old new : string) (skip : nat) (s : string) : string :=
  match s with
  | EmptyString => EmptyString
  | String c s' =>
      match skip with
      | S k => replace_from old new k s'
      | O =>
          if startswith old s
          then new ++ replace_from old new (Nat.pred (String.length old)) s'
          else String c (replace_from old new O s')
      end
  end.

(** For an empty [old] Python puts [new] before every character and at the
    end. *)
Fixpoint intersperse_all (new s : string) : string :=
  match s with
  | EmptyString => new
  | String c s' => new ++ String c (intersperse_all new s')
  end.

Definition replace (old new s : string) : string :=
  match old with
  | EmptyString => intersperse_all new s
  | _ => replace_from old new O s
  end.

(** [l[:n]] for an integer [n]: a negative bound counts from the end. *)
Definition slice_to {A} (l : list A) (n : Z) : list A :=
  if 0 <=? n then firstn (Z.to_nat n) l
  else firstn (Z.to_nat (Z.of_nat (List.length l) + n)) l.

(** Truth value of a [str] and of an optional [str] ([None] is false). *)
Definition truthy_str (s : string) : bool :=
  match s with EmptyString => false | _ => true end.

Definition truthy_opt_str (o : option string) : bool :=
  match o with Some s => truthy_str s | None => false end.

(** [str(n)] for an integer. *)
Definition str_of_Z (n : Z) : string := pretty n.
Definition str_of_nat (n : nat) : string := pretty n.

(** [os.path.basename]: what follows the last slash. *)
Fixpoint basename_from (acc s : string) : string :=
  match s with
  | EmptyString => acc
  | String c s' =>
      if Ascii.eqb c "/" then basename_from s' s' else basename_from acc s'
  end.

Definition basename (path : string) : string := basename_from path path.

(** *** Exceptions *)
Inductive exn_class : Type :=
| AttributeError | TypeError | ValueError | OverflowError
| FileNotFoundError | RequestException | SMTPException | LibraryError.

Record pyexn : Type := Exn { exn_cls : exn_class; exn_msg : string }.

(** The outcome of an expression that may raise. *)
Inductive res (A : Type) : Type :=
| Ret (a : A)
| Exc (e : pyexn).
Arguments Ret {A} a.
Arguments Exc {A} e.

Definition res_bind {A B} (r : res A) (k : A -> res B) : res B :=
  match r with
  | Ret a => k a
  | Exc e => Exc e
  end.

(** A [for] loop whose body may raise, collecting one value per round; the
    first exception ends the loop. *)
Fixpoint res_map {A B} (f : A -> res B) (l : list A) : res (list B) :=
  match l with
  | [] => Ret []
  | x :: l' =>
      res_bind (f x) (fun y => res_bind (res_map f l') (fun ys => Ret (y :: ys)))
  end.

(** [obj.attr] on a feedparser entry: a missing key raises. *)
Definition getattr {A} (attr : string) (o : option A) : res A :=
  match o with
  | Some a => Ret a
  | None => Exc (Exn AttributeError ("object has no attribute '" ++ attr ++ "'"))
  end.

(** *** [datetime]

    A naive [datetime] is modelled by its position on the proleptic
    Gregorian time line, in microseconds, day 1 being 0001-01-01 as in
    [date.toordinal]; comparing two naive datetimes compares these
    positions. *)
Definition datetime : Type := Z.

Definition US_PER_DAY : Z := 86400000000.
(** [date.max.toordinal()] *)
Definition MAXORDINAL : Z := 3652059.
Definition DATETIME_MIN : datetime := 1 * US_PER_DAY.
Definition DATETIME_MAX : datetime := (MAXORDINAL + 1) * US_PER_DAY - 1.

Definition is_leap (y : Z) : bool :=
  (y mod 4 =? 0) && (negb (y mod 100 =? 0) || (y mod 400 =? 0)).

Definition days_before_year (y : Z) : Z :=
  let y' := y - 1 in y' * 365 + y' / 4 - y' / 100 + y' / 400.

Definition days_in_month (y m : Z) : Z :=
  if m =? 2 then (if is_leap y then 29 else 28)
  else if (m =? 4) || (m =? 6) || (m =? 9) || (m =? 11) then 30
  else 31.

Definition days_before_month (y m : Z) : Z :=
  nth (Z.to_nat m) [0; 0; 31; 59; 90; 120; 151; 181; 212; 243; 273; 304; 334] 0
  + (if (2 <? m) && is_leap y then 1 else 0).

Definition ymd2ord (y m d : Z) : Z :=
  days_before_year y + days_before_month y m + d.

(** [time.struct_time], as [entry.published_parsed] holds it. *)
Record struct_time : Type := {
  tm_year : Z; tm_mon : Z; tm_mday : Z;
  tm_hour : Z; tm_min : Z; tm_sec : Z
}.

(** [datetime(year, month, day, hour, minute, second)]: the constructor
    checks every field and raises [ValueError] otherwise. *)
Definition datetime_new (y m d hh mi ss : Z) : res datetime :=
  if negb ((1 <=? y) && (y <=? 9999)) then Exc (Exn ValueError "year is out of range")
  else if negb ((1 <=? m) && (m <=? 12)) then Exc (Exn ValueError "month must be in 1..12")
  else if negb ((1 <=? d) && (d <=? days_in_month y m))
       then Exc (Exn ValueError "day is out of range for month")
  else if negb ((0 <=? hh) && (hh <=? 23)) then Exc (Exn ValueError "hour must be in 0..23")
  else if negb ((0 <=? mi) && (mi <=? 59)) then Exc (Exn ValueError "minute must be in 0..59")
  else if negb ((0 <=? ss) && (ss <=? 59)) then Exc (Exn ValueError "second must be in 0..59")
  else Ret (ymd2ord y m d * US_PER_DAY + ((hh * 60 + mi) * 60 + ss) * 1000000).

(** The call [datetime] on the first six fields of
    [entry.published_parsed]; [None] cannot be subscripted. *)
Definition datetime_of_parsed (t : option struct_time) : res datetime :=
  match t with
  | None => Exc (Exn TypeError "'NoneType' object is not subscriptable")
  | Some t =>
      datetime_new (tm_year t) (tm_mon t) (tm_mday t) (tm_hour t) (tm_min t) (tm_sec t)
  end.

(** [now - timedelta(days=days)].  [timedelta] accepts at most 999999999
    days either way, and the difference must be a representable date. *)
Definition minus_days (now : datetime) (days : Z) : res datetime :=
  if negb ((-999999999 <=? days) && (days <=? 999999999))
  then Exc (Exn OverflowError "days out of range for timedelta")
  else
    let t := now - days * US_PER_DAY in
    if (DATETIME_MIN <=? t) && (t <=? DATETIME_MAX) then Ret t
    else Exc (Exn OverflowError "date value out of range").

End Py.

(** ** The part of BeautifulSoup the extractor uses *)
Module Soup.

(** A parsed page.  [Elem] carries an identity [uid] standing for the
    identity of the Python [Tag] object: [decompose] removes exactly the
    object it is called on.  [Special] stands for the string kinds that
    [get_text] leaves out (comments, doctype, processing instructions). *)
Inductive node : Type :=
| Text (s : string)
| Special (s : string)
| Elem (uid : nat) (name : string) (classes : list string) (contents : list node).

(** [tag.descendants]: every node below a tag, in document order. *)
Fixpoint descendants (n : node) : list node :=
  match n with
  | Elem _ _ _ cs => flat_map (fun c => c :: descendants c) cs
  | _ => []
  end.

(** [soup.descendants] for the document object, whose contents are [cs]. *)
Definition soup_descendants (cs : list node) : list node :=
  flat_map (fun c => c :: descendants c) cs.

Definition has_class (cls : string) (classes : list string) : bool :=
  existsb (String.eqb cls) classes.

(** The matcher of [find('div', class_=cls)] and of
    [find_all("div", {'class': cls})]. *)
Definition is_tag_with_class (nm cls : string) (n : node) : bool :=
  match n with
  | Elem _ nm' classes _ => String.eqb nm nm' && has_class cls classes
  | _ => false
  end.

(** The matcher of [find('article')]. *)
Definition is_tag (nm : string) (n : node) : bool :=
  match n with
  | Elem _ nm' _ _ => String.eqb nm nm'
  | _ => false
  end.

(** [soup.find(...)]: the first match among the descendants, or [None]. *)
Definition find (p : node -> bool) (cs : list node) : option node :=
  head (List.filter p (soup_descendants cs)).

(** [tag.find_all(...)]: all matches among the descendants of [tag], in
    document order, computed before the caller's loop starts. *)
Definition find_all (p : node -> bool) (tag : node) : list node :=
  List.filter p (descendants tag).

(** [d is n]: the two are the same [Tag] object. *)
Definition is_node (d n : node) : bool :=
  match d, n with
  | Elem i _ _ _, Elem j _ _ _ => Nat.eqb i j
  | _, _ => false
  end.

(** [d.decompose()], seen from the tree [n] that holds [d]: the object [d]
    is unlinked from its parent, with everything below it.  When [d] is no
    longer in the tree (an ancestor went first) nothing changes. *)
Fixpoint decompose (d : node) (n : node) : node :=
  match n with
  | Elem i nm cl cs =>
      Elem i nm cl
        (flat_map (fun c => if is_node d c then [] else [decompose d c]) cs)
  | _ => n
  end.

(** The strings [_all_strings(strip=True)] yields: the [Text] descendants,
    stripped, those that become empty left out. *)
Definition stripped_strings (tag : node) : list string :=
  List.filter Py.truthy_str
    (flat_map (fun d => match d with Text s => [Py.strip s] | _ => [] end)
       (descendants tag)).

(** [tag.get_text(separator=sep, strip=True)] *)
Definition get_text (sep : string) (tag : node) : string :=
  Py.join sep (stripped_strings tag).

End Soup.

(** ** The outside world and the effects of a run *)
Module Env.
Import Py.

(** One item of a parsed feed ([feedparser]): a key the feed did not
    provide is absent, and reading it raises [AttributeError]. *)
Record entry : Type := {
  title : option string;
  link : option string;
  published_parsed : option struct_time
}.

(** What [requests.get] gives back. *)
Record response : Type := {
  status_code : Z;
  reason : string;
  resp_url : string;
  content : list Soup.node  (* the body, as [html.parser] reads it *)
}.

Inductive http_result : Type :=
| HttpRaises (msg : string)   (* a [RequestException]: no connection, timeout *)
| HttpResponse (r : response).

(** A chapter and a book of [ebooklib]. *)
Record chapter : Type := {
  ch_title : string;
  ch_file_name : string;
  ch_lang : string;
  ch_content : string
}.

Inductive item : Type := ItemChapter (c : chapter) | ItemNcx | ItemNav.
Inductive spine_entry : Type := SpineNav | SpineChapter (c : chapter).

Record book : Type := {
  identifier : string;
  book_title : string;
  language : string;
  book_authors : list string;
  items : list item;
  toc : list chapter;
  spine : list spine_entry
}.

(** What a file holds: a PDF is identified with the HTML it was rendered
    from, an EPUB with the book it was written from. *)
Inductive document : Type :=
| PdfOf (html : string)
| EpubOf (b : book)
| Blob (bytes : string).

Record message : Type := {
  msg_from : string;
  msg_to : string;
  msg_subject : string;
  msg_body : option string;
  att_name : string;
  att_payload : document
}.

(** The calls made on an SMTP session. *)
Inductive smtp_event : Type :=
| SmtpConnect (host : string) (port : Z)
| SmtpStartTls
| SmtpLogin (user password : string)
| SmtpSend (m : message)
| SmtpQuit.

(** Everything a run reads from outside.  An [option string] answer is
    [None] when the call succeeds and [Some msg] when it raises. *)
Record World : Type := {
  now : datetime;                                 (* [datetime.now()] *)
  strftime : string -> datetime -> string;        (* [d.strftime(fmt)] *)
  feedparser_parse : string -> list entry;        (* [feedparser.parse(url).entries] *)
  requests_get : string -> http_result;
  newspaper : string -> string * list string + string;
      (* [Article(url)] after [download()] and [parse()]: text and authors,
         or the message of the exception *)
  pdfkit_from_string : string -> string -> option string;
  write_epub : string -> book -> option string;
  smtp : smtp_event -> option string
}.

(** What a run leaves behind. *)
Record sys : Type := {
  stdout : list string;
  files : gmap string document;
  smtp_trace : list smtp_event
}.

(** Effectful code: it transforms [sys] and returns or raises. *)
Definition M (A : Type) : Type := sys -> res A * sys.

Definition ret {A} (a : A) : M A := fun s => (Ret a, s).
Definition raise {A} (e : pyexn) : M A := fun s => (Exc e, s).

Definition bind {A B} (m : M A) (k : A -> M B) : M B :=
  fun s =>
    match m s with
    | (Ret a, s') => k a s'
    | (Exc e, s') => (Exc e, s')
    end.

Definition lift {A} (r : res A) : M A := fun s => (r, s).

(** [try: body  except Exception as e: handler(e)] *)
Definition try_except {A} (body : M A) (handler : pyexn -> M A) : M A :=
  fun s =>
    match body s with
    | (Ret a, s') => (Ret a, s')
    | (Exc e, s') => handler e s'
    end.

(** [for x in l: acc = body(x, acc)] *)
Fixpoint for_each {A B} (l : list A) (body : A -> B -> M B) (acc : B) : M B :=
  match l with
  | [] => ret acc
  | x :: l' => bind (body x acc) (fun acc' => for_each l' body acc')
  end.

Definition print (line : string) : M unit :=
  fun s => (Ret tt, {| stdout := stdout s ++ [line];
                       files := files s; smtp_trace := smtp_trace s |}).

(** [open(path, "rb").read()] *)
Definition read_file (path : string) : M document :=
  fun s =>
    match files s !! path with
    | Some d => (Ret d, s)
    | None =>
        (Exc (Exn FileNotFoundError
                ("[Errno 2] No such file or directory: '" ++ path ++ "'")), s)
    end.

Definition write_file (path : string) (d : document) : M unit :=
  fun s => (Ret tt, {| stdout := stdout s; files := <[path := d]> (files s);
                       smtp_trace := smtp_trace s |}).

(** One call on the SMTP session: recorded, then answered by the world. *)
Definition smtp_call (w : World) (ev : smtp_event) : M unit :=
  fun s =>
    let s' := {| stdout := stdout s; files := files s;
                 smtp_trace := smtp_trace s ++ [ev] |} in
    match smtp w ev with
    | None => (Ret tt, s')
    | Some msg => (Exc (Exn SMTPException msg), s')
    end.

(** The exit status of the interpreter: 0 when [main()] returns, 1 when an
    exception escapes it. *)
Definition exit_code {A} (r : res A) : Z :=
  match r with
  | Ret _ => 0
  | Exc _ => 1
  end.

Definition init : sys := {| stdout := []; files := ∅; smtp_trace := [] |}.

End Env.

Notation "'do' x <- m ; k" := (Env.bind m (fun x => k))
  (at level 10, x name, m at level 100, k at level 200).
Notation "'run' m ; k" := (Env.bind m (fun _ => k))
  (at level 10, m at level 100, k at level 200).

(** ** [rss_to_kindle.py] *)
Module RssToKindle.
Import Py Env.

(** The two literal dictionaries of the script. *)
Record article : Type := { title : string; link : string }.
Record article_with_content : Type := { wc_title : string; wc_content : string }.

(** The command line after [argparse]: an option that is given neither as
    an argument nor in the environment is [None]. *)
Record args : Type := {
  rss_url : string;
  kindle_email : string;
  sender_email : option string;
  sender_password : option string;
  output_filename : string;
  max_articles : Z
}.

Definition send_email (w : World)
    (sender_email sender_password recipient_email subject body attachment_path : string)
    : M unit :=
  do payload <- read_file attachment_path;
  let msg := {| msg_from := sender_email; msg_to := recipient_email;
                msg_subject := subject; msg_body := Some body;
                att_name := basename attachment_path; att_payload := payload |} in
  try_except
    (run smtp_call w (SmtpConnect "smtp.gmail.com" 587);
     run smtp_call w SmtpStartTls;
     run smtp_call w (SmtpLogin sender_email sender_password);
     run smtp_call w (SmtpSend msg);
     run smtp_call w SmtpQuit;
     print "Email sent successfully!")
    (fun e => print ("Error sending email: " ++ exn_msg e)).

(** [response.raise_for_status()] *)
Definition raise_for_status (r : response) : res unit :=
  let describe kind :=
    str_of_Z (status_code r) ++ " " ++ kind ++ " Error: " ++ reason r
      ++ " for url: " ++ resp_url r in
  if (400 <=? status_code r) && (status_code r <? 500)
  then Exc (Exn RequestException (describe "Client"))
  else if (500 <=? status_code r) && (status_code r <? 600)
  then Exc (Exn RequestException (describe "Server"))
  else Ret tt.

(** [a or b] on results of [find]: a [Tag] is always true, [None] false. *)
Definition py_or {A} (a b : option A) : option A :=
  match a with
  | Some _ => a
  | None => b
  end.

Definition div_with_class (cls : string) : Soup.node -> bool :=
  Soup.is_tag_with_class "div" cls.

(** Lines 68-69: the label blocks are looked up first, then each one is
    taken out of the container. *)
Definition remove_labels (article_body : Soup.node) : Soup.node :=
  fold_left (fun body div => Soup.decompose div body)
    (Soup.find_all (div_with_class "post-labels") article_body)
    article_body.

(** The two exits of the [try] block that raise are [requests.get] and
    [raise_for_status]; both raise a [RequestException], which the
    [except] clause turns into the returned string. *)
Definition extract_article_content (w : World) (article_url : string) : string :=
  match requests_get w article_url with
  | HttpRaises e => "Error fetching article: " ++ e
  | HttpResponse response =>
      match raise_for_status response with
      | Exc e => "Error fetching article: " ++ exn_msg e
      | Ret _ =>
          let soup := content response in
          match Soup.find (div_with_class "post-body") soup with
          | Some article_body =>
              let article_body := remove_labels article_body in
              Soup.get_text lit_backslash_n article_body
          | None =>
              match py_or (Soup.find (Soup.is_tag "article") soup)
                      (py_or (Soup.find (div_with_class "content") soup)
                             (Soup.find (div_with_class "post") soup)) with
              | Some article_body => Soup.get_text lit_backslash_n article_body
              | None => "Could not extract article content."
              end
          end
      end
  end.

Definition parse_rss_feed (w : World) (feed_url : string) : res (list article) :=
  res_map
    (fun entry =>
       res_bind (getattr "title" (Env.title entry)) (fun t =>
       res_bind (getattr "link" (Env.link entry)) (fun l =>
       Ret {| title := t; link := l |})))
    (feedparser_parse w feed_url).

(** The HTML handed to [pdfkit]. *)
Definition pdf_html (articles : list article_with_content) : string :=
  fold_left
    (fun html article =>
       html ++ "<h1>" ++ wc_title article ++ "</h1>"
            ++ "<div>" ++ wc_content article ++ "</div>"
            ++ "<hr>")
    articles
    "<html><head><meta charset='utf-8'></head><body>"
  ++ "</body></html>".

(** [pdfkit.from_string(html, path)]: writes the file or raises. *)
Definition pdfkit_call (w : World) (html path : string) : M unit :=
  match pdfkit_from_string w html path with
  | None => write_file path (PdfOf html)
  | Some msg => raise (Exn LibraryError msg)
  end.

Definition convert_to_pdf (w : World) (articles : list article_with_content)
    (output_filename : string) : M unit :=
  let html := pdf_html articles in
  try_except
    (run pdfkit_call w html output_filename;
     print ("Successfully created " ++ output_filename))
    (fun e => print ("Error creating PDF: " ++ exn_msg e)).

Definition skip_notice : string :=
  lit_backslash_n ++
  "Email sending is skipped. Please provide sender credentials via arguments or environment variables.".

Definition main (w : World) (a : args) : M unit :=
  do parsed_articles <- lift (parse_rss_feed w (rss_url a));
  match parsed_articles with
  | [] => ret tt
  | _ :: _ =>
      do articles_with_content <-
        for_each (slice_to parsed_articles (max_articles a))
          (fun article acc =>
             run print ("Processing: " ++ title article);
             let content := extract_article_content w (link article) in
             ret (acc ++ [{| wc_title := title article;
                             wc_content := replace lit_backslash_n "<br>" content |}])%list)
          [];
      run convert_to_pdf w articles_with_content (output_filename a);
      match sender_email a, sender_password a with
      | Some email, Some password =>
          if truthy_str email && truthy_str password
          then send_email w email password (kindle_email a)
                 "RSS Feed Content" "Attached is your RSS feed content."
                 (output_filename a)
          else print skip_notice
      | _, _ => print skip_notice
      end
  end.

End RssToKindle.

(** ** [RSS_script.py] *)
Module RSSScript.
Import Py Env.

(** One element of [CONFIG['feeds']]. *)
Module Feed.
Record t : Type := { name : string; url : string }.
End Feed.

(** [CONFIG['smtp']] *)
Module Smtp.
Record t : Type := { host : string; port : Z; username : string; password : string }.
End Smtp.

Record config : Type := {
  feeds : list Feed.t;
  kindle_email : string;
  smtp : Smtp.t;
  max_articles_per_feed : Z;
  days_old : Z
}.

Definition CONFIG : config := {|
  feeds := [ {| Feed.name := "Tech News"; Feed.url := "https://techcrunch.com/feed/" |};
             {| Feed.name := "Python Weekly"; Feed.url := "https://www.pythonweekly.com/rss/" |} ];
  kindle_email := "yourname@kindle.com";
  smtp := {| Smtp.host := "smtp.gmail.com"; Smtp.port := 587;
             Smtp.username := "your-email@gmail.com";
             Smtp.password := "your-app-password" |};
  max_articles_per_feed := 5;
  days_old := 1
|}.

(** The dictionary built by [fetch_articles]; the keys ['content'] and
    ['authors'] are absent until [extract_content] adds them. *)
Record article : Type := {
  title : string;
  url : string;
  feed_name : string;
  date : datetime;
  content : option string;
  authors : option (list string)
}.

(** Lines 41-53, the body of the inner loop: the [try] block around one
    entry, with the list [articles] it appends to. *)
Definition consider_entry (cutoff_date : datetime) (feed : Feed.t) (entry : entry)
    (articles : list article) : M (list article) :=
  try_except
    (do pub_date <- lift (datetime_of_parsed (published_parsed entry));
     if cutoff_date <=? pub_date
     then
       do t <- lift (getattr "title" (Env.title entry));
       do l <- lift (getattr "link" (Env.link entry));
       ret (articles ++ [{| title := t; url := l;
                            feed_name := Feed.name feed; date := pub_date;
                            content := None; authors := None |}])%list
     else ret articles)
    (fun e =>
       run print ("Error parsing entry: " ++ exn_msg e);
       ret articles).

Definition fetch_articles (w : World) (feeds : list Feed.t)
    (max_articles days_old : Z) : M (list article) :=
  do cutoff_date <- lift (minus_days (now w) days_old);
  for_each feeds
    (fun feed articles =>
       run print ("Fetching " ++ Feed.name feed ++ "...");
       let parsed := feedparser_parse w (Feed.url feed) in
       for_each (slice_to parsed max_articles) (consider_entry cutoff_date feed) articles)
    [].

(** [extract_content] changes the dictionary it is given and returns it, or
    returns [None]; the first component is the dictionary after the call,
    the second the returned value. *)
Definition extract_content (w : World) (article_data : article)
    : M (article * option article) :=
  match newspaper w (url article_data) with
  | inl (text, auth) =>
      let article_data :=
        {| title := title article_data; url := url article_data;
           feed_name := feed_name article_data; date := date article_data;
           content := Some text; authors := Some auth |} in
      ret (article_data, Some article_data)
  | inr e =>
      run print ("Error extracting " ++ title article_data ++ ": " ++ e);
      ret (article_data, None)
  end.

Definition spaces (n : nat) : string := string_of_list_ascii (repeat " "%char n).

Definition content_html (w : World) (a : article) (body : string) : string :=
  lit_newline ++ spaces 16 ++ "<h1>" ++ title a ++ "</h1>" ++
  lit_newline ++ spaces 16 ++ "<p><em>Source: " ++ feed_name a ++ "</em></p>" ++
  lit_newline ++ spaces 16 ++ "<p><em>Date: "
     ++ strftime w "%Y-%m-%d %H:%M" (date a) ++ "</em></p>" ++
  lit_newline ++ spaces 16 ++ "<hr/>" ++
  lit_newline ++ spaces 16 ++ "<div>" ++ replace lit_newline "</p><p>" body ++ "</div>" ++
  lit_newline ++ spaces 12.

(** [enumerate(l)] *)
Definition enumerate {A} (l : list A) : list (nat * A) :=
  combine (seq 0 (List.length l)) l.

(** The loop of [create_epub]: the chapters appended so far, which are
    also the items added to the book so far. *)
Definition build_chapters (w : World) (articles : list (option article)) : list chapter :=
  fold_left
    (fun chapters '(idx, article) =>
       match article with
       | Some a =>
           match content a with
           | Some body =>
               if truthy_str body
               then (chapters ++
                       [{| ch_title := title a;
                           ch_file_name := "article_" ++ str_of_nat idx ++ ".xhtml";
                           ch_lang := "en";
                           ch_content := content_html w a body |}])%list
               else chapters
           | None => chapters
           end
       | None => chapters
       end)
    (enumerate articles) [].

Definition make_book (w : World) (chapters : list chapter) : book := {|
  identifier := "rss_digest_" ++ strftime w "%Y%m%d" (now w);
  book_title := "Daily Digest - " ++ strftime w "%Y-%m-%d" (now w);
  language := "en";
  book_authors := ["RSS Aggregator"];
  items := (map ItemChapter chapters ++ [ItemNcx; ItemNav])%list;
  toc := chapters;
  spine := SpineNav :: map SpineChapter chapters
|}.

(** [epub.write_epub(path, book)]: writes the file or raises. *)
Definition write_epub_call (w : World) (path : string) (b : book) : M unit :=
  match write_epub w path b with
  | None => write_file path (EpubOf b)
  | Some msg => raise (Exn LibraryError msg)
  end.

Definition create_epub (w : World) (articles : list (option article))
    (output_file : string) : M unit :=
  let chapters := build_chapters w articles in
  let book := make_book w chapters in
  run write_epub_call w output_file book;
  print ("EPUB created: " ++ output_file).

Definition send_to_kindle (w : World) (epub_file : string) (config : config) : M unit :=
  do payload <- read_file epub_file;
  let msg := {| msg_from := Smtp.username (smtp config);
                msg_to := kindle_email config;
                msg_subject := "Daily Digest - " ++ strftime w "%Y-%m-%d" (now w);
                msg_body := None;
                att_name := basename epub_file; att_payload := payload |} in
  try_except
    (run smtp_call w (SmtpConnect (Smtp.host (smtp config)) (Smtp.port (smtp config)));
     run smtp_call w SmtpStartTls;
     run smtp_call w (SmtpLogin (Smtp.username (smtp config)) (Smtp.password (smtp config)));
     run smtp_call w (SmtpSend msg);
     run smtp_call w SmtpQuit;
     print ("Email sent to " ++ kindle_email config))
    (fun e => print ("Error sending email: " ++ exn_msg e)).

(** [main], for a configuration [cfg] in place of the global [CONFIG].
    The loop of step 2 discards what [extract_content] returns: the list
    [articles] sees the additions because the dictionaries are changed in
    place. *)
Definition main_with (w : World) (cfg : config) : M unit :=
  run print ("=== RSS to Kindle Pipeline ===" ++ lit_newline);
  run print "Step 1: Fetching RSS feeds...";
  do articles <- fetch_articles w (feeds cfg) (max_articles_per_feed cfg) (days_old cfg);
  run print ("Found " ++ str_of_nat (List.length articles) ++ " articles" ++ lit_newline);
  run print "Step 2: Extracting full article content...";
  do articles <-
    for_each articles
      (fun article done =>
         do r <- extract_content w article;
         ret (done ++ [fst r])%list)
      [];
  let extracted := List.length (List.filter (fun a => truthy_opt_str (content a)) articles) in
  run print ("Extracted content for " ++ str_of_nat extracted ++ " articles" ++ lit_newline);
  run print "Step 3: Generating EPUB...";
  let output_file := "digest_" ++ strftime w "%Y%m%d" (now w) ++ ".epub" in
  run create_epub w (map Some articles) output_file;
  run print (lit_newline ++ "Step 4: Sending to Kindle...");
  run send_to_kindle w output_file cfg;
  run print (lit_newline ++ "Step 5: Cleaning up...");
  print (lit_newline ++ "=== Pipeline Complete ===").

Definition main (w : World) : M unit := main_with w CONFIG.

End RSSScript.

(** * Vocabulary of the properties *)


(** ** Pages: pruning, strings, identities *)
Section PageTerms.
Import Soup.

(** [prune p n] drops, below [n], every subtree whose root satisfies [p]. *)
Fixpoint prune (p : node -> bool) (n : node) : node :=
  match n with
  | Elem i nm cl cs =>
      Elem i nm cl (flat_map (fun c => if p c then [] else [prune p c]) cs)
  | _ => n
  end.

(** The strings directly held by a node, and all the strings below it. *)
Definition own_text (n : node) : list string :=
  match n with
  | Text s => [s]
  | _ => []
  end.

Definition texts (n : node) : list string := flat_map own_text (descendants n).

(** The strings below [n] that do not lie inside a subtree whose root
    satisfies [p]. *)
Fixpoint texts_outside (p : node -> bool) (n : node) : list string :=
  match n with
  | Elem _ _ _ cs =>
      flat_map (fun c => if p c then [] else (own_text c ++ texts_outside p c)%list) cs
  | _ => []
  end.

(** The identities of the elements of a list of nodes. *)
Definition elem_uids (l : list node) : list nat :=
  flat_map (fun n => match n with Elem i _ _ _ => [i] | _ => [] end) l.

(** Every [Tag] object below [n] is a different object. *)
Definition distinct_tags (n : node) : Prop := List.NoDup (elem_uids (descendants n)).

(** [a] is the first node of the page, in document order, that satisfies [p]. *)
Definition first_in_document (p : node -> bool) (soup : list node) (a : node) : Prop :=
  exists before after,
    soup_descendants soup = (before ++ a :: after)%list /\
    p a = true /\
    Forall (fun n => p n = false) before.

(** No node of the page satisfies [p]. *)
Definition absent (p : node -> bool) (soup : list node) : Prop :=
  Forall (fun n => p n = false) (soup_descendants soup).

End PageTerms.

(** ** Matchers *)
Section DecomposeTerms.
Import Soup.

(** A matcher that looks at the tag itself, not at what is below it. *)
Definition head_only (q : node -> bool) : Prop :=
  forall i nm cl cs cs', q (Elem i nm cl cs) = q (Elem i nm cl cs').

End DecomposeTerms.

(** ** The extractor *)
Section ExtractorTerms.
Import Py Env Soup RssToKindle.

(** The request for [url] is answered, without an error status, by the page
    [soup]. *)
Definition page_of (w : World) (url : string) (soup : list node) : Prop :=
  exists r, requests_get w url = HttpResponse r /\
            (status_code r < 400 \/ 600 <= status_code r) /\
            content r = soup.

(** The heuristics, in the order of the specification. *)
Definition heuristics : list (node -> bool) :=
  [div_with_class "post-body"; is_tag "article";
   div_with_class "content"; div_with_class "post"].

(** First match wins: the first heuristic of [hs] that matches somewhere in
    the page, with its rank and its first match in document order. *)
Fixpoint select (hs : list (node -> bool)) (rank : nat) (soup : list node)
    : option (nat * node) :=
  match hs with
  | [] => None
  | h :: hs' =>
      match List.filter h (soup_descendants soup) with
      | n :: _ => Some (rank, n)
      | [] => select hs' (S rank) soup
      end
  end.

(** What the extractor returns once the page is there. *)
Definition extract_from (soup : list node) : string :=
  match find (div_with_class "post-body") soup with
  | Some article_body => get_text lit_backslash_n (remove_labels article_body)
  | None =>
      match py_or (find (is_tag "article") soup)
              (py_or (find (div_with_class "content") soup)
                     (find (div_with_class "post") soup)) with
      | Some article_body => get_text lit_backslash_n article_body
      | None => "Could not extract article content."
      end
  end.

(** The strings of the container that lie outside every label block. *)
Definition body_texts (article_body : node) : list string :=
  texts_outside (div_with_class "post-labels") article_body.

End ExtractorTerms.

(** ** Concrete pages *)
Module Pages.
Import Py Env Soup.

(** A world that answers every request with the page [soup] and has
    nothing else to offer. *)
Definition serving (soup : list node) : World := {|
  now := DATETIME_MIN;
  strftime := fun fmt _ => fmt;
  feedparser_parse := fun _ => [];
  requests_get := fun u =>
    HttpResponse {| status_code := 200; reason := "OK"; resp_url := u; content := soup |};
  newspaper := fun _ => inr "not used";
  pdfkit_from_string := fun _ _ => None;
  write_epub := fun _ _ => None;
  smtp := fun _ => None
|}.

(** A generic article, after a [div] of class [post] and with no Blogspot
    container anywhere. *)
Definition the_article : node :=
  Elem 4 "article" [] [Elem 5 "p" [] [Text "  Hello "]; Text "world"].

Definition generic_page : list node :=
  [Elem 1 "html" []
     [Elem 2 "body" []
        [Elem 3 "div" ["post"] [Text "sidebar"]; the_article]]].

(** A Blogspot container with two paragraphs. *)
Definition two_paragraphs : list node :=
  [Elem 1 "div" ["post-body"]
     [Elem 2 "p" [] [Text " a "]; Elem 3 "p" [] [Text "b"]]].

(** A Blogspot container with a label block, itself holding another one. *)
Definition labelled_body : node :=
  Elem 1 "div" ["post-body"; "entry-content"]
    [Elem 2 "p" [] [Text "First."];
     Elem 3 "div" ["post-labels"]
       [Text "Labels:"; Elem 4 "a" [] [Text "rocq"];
        Elem 5 "div" ["post-labels"] [Text "more"]];
     Special "a comment";
     Text "Last."].

Definition labelled_page : list node := [Elem 0 "body" [] [labelled_body]].

End Pages.

(** ** Runs of [rss_to_kindle.py] *)
Section RssToKindleTerms.
Import Py Env RssToKindle.

(** The state [s] after [lines] were printed. *)
Definition with_stdout (s : sys) (lines : list string) : sys :=
  {| stdout := stdout s ++ lines; files := files s; smtp_trace := smtp_trace s |}.

(** The section that the loop of [main] makes of one article. *)
Definition section_of (w : World) (article : article) : article_with_content :=
  {| wc_title := title article;
     wc_content := replace lit_backslash_n "<br>"
                     (extract_article_content w (link article)) |}.

Definition processing_line (article : article) : string :=
  "Processing: " ++ title article.

(** The articles [main] works on. *)
Definition selected (a : args) (parsed_articles : list article) : list article :=
  slice_to parsed_articles (max_articles a).

Definition has_credentials (a : args) : bool :=
  truthy_opt_str (sender_email a) && truthy_opt_str (sender_password a).

(** The last step of [main]. *)
Definition deliver (w : World) (a : args) : M unit :=
  match sender_email a, sender_password a with
  | Some email, Some password =>
      if truthy_str email && truthy_str password
      then send_email w email password (kindle_email a)
             "RSS Feed Content" "Attached is your RSS feed content."
             (output_filename a)
      else print skip_notice
  | _, _ => print skip_notice
  end.

(** The state after [convert_to_pdf]. *)
Definition after_pdf (w : World) (articles : list article_with_content)
    (path : string) (s : sys) : sys :=
  match pdfkit_from_string w (pdf_html articles) path with
  | None =>
      {| stdout := stdout s ++ ["Successfully created " ++ path];
         files := <[path := PdfOf (pdf_html articles)]> (files s);
         smtp_trace := smtp_trace s |}
  | Some msg => with_stdout s ["Error creating PDF: " ++ msg]
  end.

End RssToKindleTerms.

(** ** The feed reader of [RSS_script.py] *)
Section FeedTerms.
Import Py Env RSSScript.

(** What one entry adds to the list of articles: itself, when its date can
    be read and is not before the cutoff and it has a title and a link. *)
Definition accepted (cutoff : datetime) (feed : Feed.t) (entry : entry) : list article :=
  match datetime_of_parsed (published_parsed entry) with
  | Ret d =>
      if cutoff <=? d
      then match Env.title entry, Env.link entry with
           | Some t, Some l =>
               [{| title := t; url := l; feed_name := Feed.name feed; date := d;
                   content := None; authors := None |}]
           | _, _ => []
           end
      else []
  | Exc _ => []
  end.

(** What one entry makes the loop print. *)
Definition entry_log (cutoff : datetime) (entry : entry) : list string :=
  match datetime_of_parsed (published_parsed entry) with
  | Ret d =>
      if cutoff <=? d
      then match Env.title entry, Env.link entry with
           | Some _, Some _ => []
           | None, _ => ["Error parsing entry: object has no attribute 'title'"]
           | Some _, None => ["Error parsing entry: object has no attribute 'link'"]
           end
      else []
  | Exc e => ["Error parsing entry: " ++ exn_msg e]
  end.

(** The articles and the lines that one feed contributes. *)
Definition feed_articles (w : World) (cutoff : datetime) (max_articles : Z)
    (feed : Feed.t) : list article :=
  flat_map (accepted cutoff feed)
    (slice_to (feedparser_parse w (Feed.url feed)) max_articles).

Definition feed_log (w : World) (cutoff : datetime) (max_articles : Z)
    (feed : Feed.t) : list string :=
  ("Fetching " ++ Feed.name feed ++ "...")
    :: flat_map (entry_log cutoff)
         (slice_to (feedparser_parse w (Feed.url feed)) max_articles).

End FeedTerms.

(** ** A concrete feed *)
Module Feeds.
Import Py Env.

Definition at_time (y m d hh mi ss : Z) : option struct_time :=
  Some {| tm_year := y; tm_mon := m; tm_mday := d;
          tm_hour := hh; tm_min := mi; tm_sec := ss |}.

Definition item (t : string) (published : option struct_time) : entry :=
  {| title := Some t; link := Some ("https://example.org/" ++ t);
     published_parsed := published |}.

(** It is noon on 2024-03-10. *)
Definition noon : datetime := ymd2ord 2024 3 10 * US_PER_DAY + 12 * 3600 * 1000000.

Definition fresh : entry := item "fresh" (at_time 2024 3 10 0 0 0).
Definition boundary : entry := item "boundary" (at_time 2024 3 9 12 0 0).
Definition stale : entry := item "stale" (at_time 2024 3 9 11 59 59).
Definition undated : entry := item "undated" None.
Definition late : entry := item "late" (at_time 2024 3 10 11 0 0).

Definition tech : RSSScript.Feed.t :=
  {| RSSScript.Feed.name := "Tech News"; RSSScript.Feed.url := "https://techcrunch.com/feed/" |}.

(** A world in which every feed lists [entries]: no article can be
    downloaded, rendering works, and the SMTP server refuses the login. *)
Definition world (entries : list entry) : World := {|
  now := noon;
  strftime := fun fmt _ => fmt;
  feedparser_parse := fun _ => entries;
  requests_get := fun _ => HttpRaises "connection refused";
  newspaper := fun _ => inr "download failed";
  pdfkit_from_string := fun _ _ => None;
  write_epub := fun _ _ => None;
  smtp := fun ev =>
    match ev with
    | SmtpLogin _ _ => Some "(535, b'5.7.8 Username and Password not accepted')"
    | _ => None
    end
|}.

Definition five : list entry := [fresh; boundary; stale; undated; late].

End Feeds.

(** ** The feed reader, as the specification words it *)
Section FeedClaimTerms.
Import Py Env.

(** C2, as the specification words it: an entry whose date cannot be read
    is still among the fetched articles. *)
Definition kept_at_fetch (w : World) (feeds : list RSSScript.Feed.t)
    (max_articles days_old : Z) (e : entry) : Prop :=
  exists a, In a (match fst (RSSScript.fetch_articles w feeds max_articles days_old init) with
                  | Ret arts => arts
                  | Exc _ => []
                  end) /\
            Env.title e = Some (RSSScript.title a) /\
            Env.link e = Some (RSSScript.url a).

End FeedClaimTerms.

(** ** The renderer of [RSS_script.py] *)
Section PipelineTerms.
Import Py Env RSSScript.

(** The dictionary after [extract_content], and what the call prints. *)
Definition extracted (w : World) (a : article) : article :=
  match newspaper w (url a) with
  | inl (text, auth) =>
      {| title := title a; url := url a; feed_name := feed_name a; date := date a;
         content := Some text; authors := Some auth |}
  | inr _ => a
  end.

Definition extract_log (w : World) (a : article) : list string :=
  match newspaper w (url a) with
  | inl _ => []
  | inr e => ["Error extracting " ++ title a ++ ": " ++ e]
  end.

(** The condition [article and article.get('content')]: the entry of the
    list is a dictionary and its content is neither absent nor empty. *)
Definition has_content (article : option article) : bool :=
  match article with
  | Some a => truthy_opt_str (content a)
  | None => false
  end.

(** The chapter that [create_epub] makes of the article at position [idx],
    if it makes one. *)
Definition chapter_of (w : World) (idx : nat) (a : article) (body : string) : chapter :=
  {| ch_title := title a;
     ch_file_name := "article_" ++ str_of_nat idx ++ ".xhtml";
     ch_lang := "en";
     ch_content := content_html w a body |}.

Definition chapters_of (w : World) (p : nat * option article) : list chapter :=
  match snd p with
  | Some a =>
      match content a with
      | Some body => if truthy_str body then [chapter_of w (fst p) a body] else []
      | None => []
      end
  | None => []
  end.

(** The name of the file a run of [main] writes. *)
Definition digest_file (w : World) : string :=
  "digest_" ++ strftime w "%Y%m%d" (now w) ++ ".epub".

End PipelineTerms.

(** ** Failures, as the specification words them *)
Section FailureTerms.
Import Py Env RssToKindle.

(** Extraction fails: the request raises, the status is an error status,
    or no heuristic matches. *)
Definition extraction_fails (w : World) (url : string) : bool :=
  match requests_get w url with
  | HttpRaises _ => true
  | HttpResponse r =>
      match raise_for_status r with
      | Exc _ => true
      | Ret _ =>
          match select heuristics 0 (content r) with
          | None => true
          | Some _ => false
          end
      end
  end.

(** C1, as the specification words it: the document is rendered from the
    articles whose extraction did not fail. *)
Definition failed_articles_excluded (w : World) (a : args) : Prop :=
  forall parsed,
    parse_rss_feed w (rss_url a) = Ret parsed ->
    files (snd (main w a init)) !! output_filename a
    = Some (PdfOf (pdf_html
                     (map (section_of w)
                        (List.filter (fun article => negb (extraction_fails w (link article)))
                           (selected a parsed))))).

Definition no_credentials : args := {|
  rss_url := "https://example.org/feed";
  kindle_email := "reader@kindle.com";
  sender_email := None;
  sender_password := None;
  output_filename := "rss_feed.pdf";
  max_articles := 10
|}.

Definition with_credentials : args := {|
  rss_url := "https://example.org/feed";
  kindle_email := "reader@kindle.com";
  sender_email := Some "me@example.org";
  sender_password := Some "secret";
  output_filename := "rss_feed.pdf";
  max_articles := 10
|}.

(** Some SMTP call of the run was refused. *)
Definition delivery_failed (w : World) (s : sys) : bool :=
  existsb (fun ev => match smtp w ev with Some _ => true | None => false end)
    (smtp_trace s).

(** No file is at [path]. *)
Definition document_missing (path : string) (s : sys) : bool :=
  match files s !! path with
  | Some _ => false
  | None => true
  end.

(** C3, as the specification words it, for a run from the empty state: the
    exit status is non-zero exactly when no document is there or the
    delivery has failed. *)
Definition exit_status_reports_failure (w : World) (a : args) : Prop :=
  let out := main w a init in
  (document_missing (output_filename a) (snd out) = true \/
   delivery_failed w (snd out) = true)
  <-> exit_code (fst out) <> 0.

End FailureTerms.

(** ** The delivery step, as the claim words it *)
Section DeliveryTerms.
Import Py Env.

(** C10, as it is stated, for a run from the empty state. *)
Definition skips_delivery_and_still_renders (w : World) (a : RssToKindle.args) : Prop :=
  has_credentials a = false ->
  let out := RssToKindle.main w a init in
  fst out = Ret tt
  /\ document_missing (RssToKindle.output_filename a) (snd out) = false
  /\ smtp_trace (snd out) = []
  /\ In RssToKindle.skip_notice (stdout (snd out)).

End DeliveryTerms.

(** ** SMTP sessions *)
Section SessionTerms.
Import Py Env.

(** The calls of one session, in the order of the [try] block of
    [send_email] and of [send_to_kindle]. *)
Definition session (host : string) (port : Z) (user password : string)
    (m : message) : list smtp_event :=
  [SmtpConnect host port; SmtpStartTls; SmtpLogin user password; SmtpSend m; SmtpQuit].

(** A call that the server accepts. *)
Definition accepts (w : World) (ev : smtp_event) : Prop := smtp w ev = None.

(** Of a list of calls made one after the other, those really made: up to
    and including the first one that is refused. *)
Fixpoint attempted (w : World) (calls : list smtp_event) : list smtp_event :=
  match calls with
  | [] => []
  | ev :: rest =>
      match smtp w ev with
      | None => ev :: attempted w rest
      | Some _ => [ev]
      end
  end.

(** The message of the first refusal, if there is one. *)
Fixpoint refusal (w : World) (calls : list smtp_event) : option string :=
  match calls with
  | [] => None
  | ev :: rest =>
      match smtp w ev with
      | None => refusal w rest
      | Some msg => Some msg
      end
  end.

(** The state [s] after the calls [evs] were made. *)
Definition with_calls (s : sys) (evs : list smtp_event) : sys :=
  {| stdout := stdout s; files := files s; smtp_trace := smtp_trace s ++ evs |}.

(** The message that [send_email] builds. *)
Definition mail_of (sender recipient subject body path : string) (d : document)
    : message :=
  {| msg_from := sender; msg_to := recipient; msg_subject := subject;
     msg_body := Some body; att_name := basename path; att_payload := d |}.

(** The message that [send_to_kindle] builds. *)
Definition digest_mail (w : World) (cfg : RSSScript.config) (path : string)
    (d : document) : message :=
  {| msg_from := RSSScript.Smtp.username (RSSScript.smtp cfg);
     msg_to := RSSScript.kindle_email cfg;
     msg_subject := "Daily Digest - " ++ strftime w "%Y-%m-%d" (now w);
     msg_body := None;
     att_name := basename path; att_payload := d |}.

(** The session that [send_to_kindle] opens. *)
Definition digest_session (w : World) (cfg : RSSScript.config) (path : string)
    (d : document) : list smtp_event :=
  session (RSSScript.Smtp.host (RSSScript.smtp cfg))
    (RSSScript.Smtp.port (RSSScript.smtp cfg))
    (RSSScript.Smtp.username (RSSScript.smtp cfg))
    (RSSScript.Smtp.password (RSSScript.smtp cfg))
    (digest_mail w cfg path d).

End SessionTerms.

(** ** Delivery in [rss_to_kindle.py] *)
Section MailTerms.
Import Py Env RssToKindle.

(** The credentials [main] uses: both given and both non-empty. *)
Definition credentials (a : args) : option (string * string) :=
  match sender_email a, sender_password a with
  | Some email, Some password =>
      if truthy_str email && truthy_str password then Some (email, password) else None
  | _, _ => None
  end.

(** The session that [main] opens for the document [d]. *)
Definition kindle_session (a : args) (email password : string) (d : document)
    : list smtp_event :=
  session "smtp.gmail.com" 587 email password
    (mail_of email (kindle_email a) "RSS Feed Content"
       "Attached is your RSS feed content." (output_filename a) d).

(** The HTML that [main] renders from the parsed feed. *)
Definition rendered_html (w : World) (a : args) (parsed : list article) : string :=
  pdf_html (map (section_of w) (selected a parsed)).

(** A state with one file and nothing else. *)
Definition on_disk (path : string) (d : document) : sys :=
  {| stdout := []; files := {[ path := d ]}; smtp_trace := [] |}.

End MailTerms.

(** ** The feed of [rss_to_kindle.py] *)
Section ParseTerms.
Import Py Env RssToKindle.

(** What [parse_rss_feed] keeps of an entry, and of an article. *)
Definition entry_fields (e : entry) : option string * option string :=
  (Env.title e, Env.link e).

Definition article_fields (a : article) : option string * option string :=
  (Some (title a), Some (link a)).

(** The entry lacks its title or its link. *)
Definition incomplete (e : entry) : Prop := Env.title e = None \/ Env.link e = None.

(** The HTML of one article. *)
Definition section_html (article : article_with_content) : string :=
  "<h1>" ++ wc_title article ++ "</h1>"
  ++ "<div>" ++ wc_content article ++ "</div>"
  ++ "<hr>".

(** All the strings of a list, one after the other. *)
Definition concat_strings (l : list string) : string :=
  fold_right String.append EmptyString l.

End ParseTerms.

(** ** More concrete worlds *)
Module Worlds.
Import Py Env.

(** Every feed lists [entries]; no page can be fetched, the PDF converter
    is missing, the SMTP server accepts everything. *)
Definition no_converter (entries : list entry) : World := {|
  now := Feeds.noon;
  strftime := fun fmt _ => fmt;
  feedparser_parse := fun _ => entries;
  requests_get := fun _ => HttpRaises "connection refused";
  newspaper := fun _ => inr "download failed";
  pdfkit_from_string := fun _ _ => Some "No wkhtmltopdf executable found";
  write_epub := fun _ _ => Some "Permission denied";
  smtp := fun _ => None
|}.

(** Every feed lists [entries]; every page is [soup], every article reads
    [text], rendering works and the SMTP server accepts everything. *)
Definition friendly (entries : list entry) (soup : list Soup.node) (text : string)
    : World := {|
  now := Feeds.noon;
  strftime := fun fmt _ => fmt;
  feedparser_parse := fun _ => entries;
  requests_get := fun u =>
    HttpResponse {| status_code := 200; reason := "OK"; resp_url := u; content := soup |};
  newspaper := fun _ => inl (text, ["A. Writer"]);
  pdfkit_from_string := fun _ _ => None;
  write_epub := fun _ _ => None;
  smtp := fun _ => None
|}.

End Worlds.

(** ** Separators *)
Section SeparatorTerms.
Import Py Env Soup RssToKindle.

(** [old in s]: the string [old] occurs somewhere in [s]. *)
Fixpoint occurs (old s : string) : bool :=
  match s with
  | EmptyString => startswith old EmptyString
  | String _ s' => startswith old s || occurs old s'
  end.

(** The next character, if there is one, is not [c]. *)
Definition not_starting_with (c : ascii) (s : string) : Prop :=
  match s with
  | EmptyString => True
  | String b _ => b <> c
  end.

(** The container whose text [extract_article_content] returns, the label
    blocks already removed, if a heuristic matches. *)
Definition chosen_container (soup : list node) : option node :=
  match find (div_with_class "post-body") soup with
  | Some article_body => Some (remove_labels article_body)
  | None =>
      py_or (find (is_tag "article") soup)
        (py_or (find (div_with_class "content") soup)
               (find (div_with_class "post") soup))
  end.

End SeparatorTerms.

(** ** A run of [RSS_script.py] *)
Section DigestTerms.
Import Py Env RSSScript.

(** The articles [main] fetches, then what they are after step 2. *)
Definition fetched (w : World) (cfg : config) (cutoff : datetime) : list article :=
  flat_map (feed_articles w cutoff (max_articles_per_feed cfg)) (feeds cfg).

Definition read_articles (w : World) (cfg : config) (cutoff : datetime) : list article :=
  map (extracted w) (fetched w cfg cutoff).

(** The article has a content, and the content is not empty. *)
Definition with_text (a : article) : bool := truthy_opt_str (content a).

(** The book [main] makes. *)
Definition digest_book (w : World) (cfg : config) (cutoff : datetime) : book :=
  make_book w (build_chapters w (map Some (read_articles w cfg cutoff))).

(** The line of step 2 that counts the extracted articles. *)
Definition extracted_line (n : nat) : string :=
  "Extracted content for " ++ str_of_nat n ++ " articles" ++ lit_newline.

(** The first line of a run, and the line that counts the fetched
    articles. *)
Definition banner_line : string := "=== RSS to Kindle Pipeline ===" ++ lit_newline.

Definition found_line (n : nat) : string :=
  "Found " ++ str_of_nat n ++ " articles" ++ lit_newline.

(** What [main] prints before it writes the book. *)
Definition lines_before_book (w : World) (cfg : config) (cutoff : datetime)
    : list string :=
  ([banner_line; "Step 1: Fetching RSS feeds..."]
   ++ flat_map (feed_log w cutoff (max_articles_per_feed cfg)) (feeds cfg)
   ++ [found_line (List.length (fetched w cfg cutoff));
       "Step 2: Extracting full article content..."]
   ++ flat_map (extract_log w) (fetched w cfg cutoff)
   ++ [extracted_line (List.length (List.filter with_text (read_articles w cfg cutoff)));
       "Step 3: Generating EPUB..."])%list.

(** The line that reports the delivery. *)
Definition delivery_line (w : World) (cfg : config) (calls : list smtp_event) : string :=
  match refusal w calls with
  | None => "Email sent to " ++ kindle_email cfg
  | Some msg => "Error sending email: " ++ msg
  end.

(** The state a run of [main] ends in when the book could be written. *)
Definition after_digest (w : World) (cfg : config) (cutoff : datetime) (s : sys) : sys :=
  let book := digest_book w cfg cutoff in
  let calls := digest_session w cfg (digest_file w) (EpubOf book) in
  {| stdout := (stdout s ++ lines_before_book w cfg cutoff
                  ++ [("EPUB created: " ++ digest_file w)%string;
                      (lit_newline ++ "Step 4: Sending to Kindle...")%string;
                      delivery_line w cfg calls;
                      (lit_newline ++ "Step 5: Cleaning up...")%string;
                      (lit_newline ++ "=== Pipeline Complete ===")%string])%list;
     files := <[digest_file w := EpubOf book]> (files s);
     smtp_trace := smtp_trace s ++ attempted w calls |}.

(** The file name of the chapter made of the article at position [idx]. *)
Definition chapter_file (idx : nat) : string :=
  "article_" ++ str_of_nat idx ++ ".xhtml".

End DigestTerms.

(** ** The clock *)
Section ClockTerms.
Import Py Env.

(** [now - timedelta(days=days)] cannot be computed: too many days for a
    [timedelta], or a date outside the years 1 to 9999. *)
Definition unrepresentable (now : datetime) (days : Z) : Prop :=
  days < -999999999 \/ 999999999 < days
  \/ now - days * US_PER_DAY < DATETIME_MIN
  \/ DATETIME_MAX < now - days * US_PER_DAY.

End ClockTerms.

(** * Properties *)


(** ** Lists, strings and pages *)
Section PageFacts.
Import Soup.

(** Induction on pages that reaches the children of an element. *)
Lemma node_ind' (P : node -> Prop) :
  (forall s, P (Text s)) ->
  (forall s, P (Special s)) ->
  (forall i nm cl cs, Forall P cs -> P (Elem i nm cl cs)) ->
  forall n, P n.
Proof.
  intros HT HS HE.
  fix IH 1. intros [s|s|i nm cl cs].
  - apply HT.
  - apply HS.
  - apply HE. induction cs as [|c cs IHcs]; constructor; [apply IH | exact IHcs].
Qed.

Lemma filter_none {A} (p : A -> bool) (l : list A) :
  Forall (fun x => p x = false) l -> List.filter p l = [].
Proof.
  induction 1 as [|x l Hx _ IH]; simpl; [reflexivity|].
  rewrite Hx. exact IH.
Qed.

Lemma filter_nil_none {A} (p : A -> bool) (l : list A) :
  List.filter p l = [] -> Forall (fun x => p x = false) l.
Proof.
  induction l as [|x l IH]; simpl; intros H; [constructor|].
  destruct (p x) eqn:Hx; [discriminate|].
  constructor; auto.
Qed.

Lemma find_absent p soup : absent p soup <-> find p soup = None.
Proof.
  unfold absent, find. split.
  - intros H. rewrite (filter_none _ _ H). reflexivity.
  - intros H. apply filter_nil_none.
    destruct (List.filter p (soup_descendants soup)); [reflexivity | discriminate].
Qed.

Lemma find_first p soup a : first_in_document p soup a -> find p soup = Some a.
Proof.
  intros (before & after & Heq & Ha & Hb).
  unfold find. rewrite Heq, List.filter_app, (filter_none _ _ Hb).
  simpl. rewrite Ha. reflexivity.
Qed.

Lemma find_some_first p soup a : find p soup = Some a -> first_in_document p soup a.
Proof.
  unfold find, first_in_document.
  induction (soup_descendants soup) as [|x l IH]; simpl; [discriminate|].
  destruct (p x) eqn:Hx; simpl.
  - intros [= <-]. exists [], l. repeat split; auto.
  - intros H. destruct (IH H) as (b & af & -> & Ha & Hb).
    exists (x :: b), af. repeat split; auto.
Qed.

Lemma in_descendants_child i nm cl cs c :
  In c cs -> In c (descendants (Elem i nm cl cs)).
Proof.
  intros H. simpl. apply in_flat_map. exists c. split; [exact H | left; reflexivity].
Qed.

Lemma in_descendants_below i nm cl cs c d :
  In c cs -> In d (descendants c) -> In d (descendants (Elem i nm cl cs)).
Proof.
  intros H Hd. simpl. apply in_flat_map. exists c. split; [exact H | right; exact Hd].
Qed.

Lemma flat_map_ext_in {A B} (f g : A -> list B) (l : list A) :
  (forall x, In x l -> f x = g x) -> flat_map f l = flat_map g l.
Proof.
  induction l as [|x l IH]; simpl; intros H; [reflexivity|].
  rewrite (H x), IH; auto.
Qed.

Lemma flat_map_flat_map {A B C} (f : A -> list B) (g : B -> list C) (l : list A) :
  flat_map g (flat_map f l) = flat_map (fun x => flat_map g (f x)) l.
Proof.
  induction l as [|x l IH]; simpl; [reflexivity|].
  rewrite flat_map_app, IH. reflexivity.
Qed.

End PageFacts.

(** ** Removing the label blocks *)
Section Decompose.
Import Soup.

Lemma head_only_is_node d : head_only (is_node d).
Proof. intros i nm cl cs cs'. destruct d; reflexivity. Qed.

Lemma head_only_prune p q c : head_only q -> q (prune p c) = q c.
Proof. intros H. destruct c; simpl; [reflexivity | reflexivity | apply H]. Qed.

Lemma decompose_prune d n : decompose d n = prune (is_node d) n.
Proof.
  induction n as [s|s|i nm cl cs IH] using node_ind'; simpl; try reflexivity.
  f_equal. apply flat_map_ext_in. intros c Hc.
  rewrite List.Forall_forall in IH. rewrite (IH c Hc). reflexivity.
Qed.

Lemma prune_nothing n : prune (fun _ => false) n = n.
Proof.
  induction n as [s|s|i nm cl cs IH] using node_ind'; simpl; try reflexivity.
  f_equal. induction IH as [|c cs Hc _ IHcs]; simpl; [reflexivity|].
  rewrite Hc, IHcs. reflexivity.
Qed.

Lemma prune_prune p q n :
  head_only q -> prune q (prune p n) = prune (fun c => p c || q c) n.
Proof.
  intros Hq.
  induction n as [s|s|i nm cl cs IH] using node_ind'; simpl; try reflexivity.
  f_equal. rewrite flat_map_flat_map.
  induction IH as [|c cs Hc _ IHcs]; simpl; [reflexivity|].
  rewrite IHcs. destruct (p c) eqn:Hp; simpl; [reflexivity|].
  rewrite app_nil_r, (head_only_prune p q c Hq).
  destruct (q c); [reflexivity|]. rewrite Hc. reflexivity.
Qed.

Lemma prune_ext p q n :
  (forall c, In c (descendants n) -> p c = q c) -> prune p n = prune q n.
Proof.
  induction n as [s|s|i nm cl cs IH] using node_ind'; intros H; simpl; try reflexivity.
  f_equal. apply flat_map_ext_in. intros c Hc.
  rewrite (H c (in_descendants_child i nm cl cs c Hc)).
  destruct (q c); [reflexivity|].
  rewrite List.Forall_forall in IH. rewrite (IH c Hc); [reflexivity|].
  intros d Hd. apply H. eapply in_descendants_below; eauto.
Qed.

(** The loop [for div in found: div.decompose()] removes every subtree
    whose root is one of the objects found. *)
Lemma decompose_loop (found : list node) (body : node) :
  fold_left (fun body div => decompose div body) found body
  = prune (fun c => existsb (fun d => is_node d c) found) body.
Proof.
  assert (G : forall p, fold_left (fun body div => decompose div body) found (prune p body)
              = prune (fun c => p c || existsb (fun d => is_node d c) found) body).
  { induction found as [|d found IH]; intros p; simpl.
    - apply prune_ext. intros c _. rewrite orb_false_r. reflexivity.
    - rewrite decompose_prune, prune_prune by apply head_only_is_node.
      rewrite IH. apply prune_ext. intros c _. rewrite orb_assoc. reflexivity. }
  rewrite <- (prune_nothing body) at 1. rewrite G. reflexivity.
Qed.

(** Two elements of a list with one identity are one object. *)
Lemma same_uid_same_node (l : list node) i nm cl cs nm' cl' cs' :
  List.NoDup (elem_uids l) ->
  In (Elem i nm cl cs) l -> In (Elem i nm' cl' cs') l ->
  Elem i nm cl cs = Elem i nm' cl' cs'.
Proof.
  assert (Hin : forall l' j a b c, In (Elem j a b c) l' -> In j (elem_uids l')).
  { intros l' j a b c H. unfold elem_uids. apply in_flat_map.
    exists (Elem j a b c). split; [exact H | left; reflexivity]. }
  induction l as [|x l IH]; simpl; intros Hnd H1 H2; [contradiction|].
  assert (Hnd' : List.NoDup (elem_uids l)).
  { unfold elem_uids in Hnd. simpl in Hnd.
    apply List.NoDup_app_remove_l in Hnd. exact Hnd. }
  assert (Hfresh : x = Elem i nm cl cs \/ x = Elem i nm' cl' cs' -> ~ In i (elem_uids l)).
  { intros Hx. assert (Hnd2 : List.NoDup (i :: elem_uids l)).
    { destruct Hx as [-> | ->]; exact Hnd. }
    inversion Hnd2; assumption. }
  destruct H1 as [H1 | H1], H2 as [H2 | H2].
  - congruence.
  - exfalso. apply Hfresh; [left; exact H1 | eapply Hin; eauto].
  - exfalso. apply Hfresh; [right; exact H2 | eapply Hin; eauto].
  - apply IH; auto.
Qed.

(** With distinct objects, the objects found by [find_all] are matched, by
    identity, by exactly the nodes that satisfy the matcher. *)
Lemma found_by_identity p body c :
  distinct_tags body ->
  (forall s, p (Text s) = false) -> (forall s, p (Special s) = false) ->
  In c (descendants body) ->
  existsb (fun d => is_node d c) (find_all p body) = p c.
Proof.
  intros Hnd HT HS Hc. unfold find_all.
  destruct (p c) eqn:Hp.
  - apply existsb_exists. exists c. split.
    + apply filter_In. split; assumption.
    + destruct c as [s|s|i nm cl cs]; simpl;
        [rewrite HT in Hp; discriminate | rewrite HS in Hp; discriminate | apply Nat.eqb_refl].
  - destruct (existsb _ _) eqn:He; [|reflexivity].
    apply existsb_exists in He. destruct He as (d & Hd & Hdc).
    apply filter_In in Hd. destruct Hd as [Hd Hpd].
    destruct d as [s|s|i nm cl cs], c as [s'|s'|j nm' cl' cs']; simpl in Hdc; try discriminate.
    apply Nat.eqb_eq in Hdc. subst j.
    rewrite (same_uid_same_node _ _ _ _ _ _ _ _ Hnd Hc Hd) in Hp. congruence.
Qed.

(** The net effect of lines 68-69 on the container. *)
Lemma remove_labels_prune p body :
  distinct_tags body ->
  (forall s, p (Text s) = false) -> (forall s, p (Special s) = false) ->
  fold_left (fun body div => decompose div body) (find_all p body) body = prune p body.
Proof.
  intros Hnd HT HS. rewrite decompose_loop. apply prune_ext.
  intros c Hc. apply found_by_identity; assumption.
Qed.

Lemma texts_prune p n : texts (prune p n) = texts_outside p n.
Proof.
  unfold texts.
  induction n as [s|s|i nm cl cs IH] using node_ind'; simpl; try reflexivity.
  rewrite !flat_map_flat_map. apply flat_map_ext_in. intros c Hc.
  destruct (p c); [reflexivity|]. simpl. rewrite app_nil_r.
  rewrite List.Forall_forall in IH. rewrite (IH c Hc).
  f_equal. destruct c; reflexivity.
Qed.

Lemma stripped_strings_texts n :
  stripped_strings n = List.filter Py.truthy_str (map Py.strip (texts n)).
Proof.
  unfold stripped_strings, texts. f_equal.
  induction (descendants n) as [|d l IH]; simpl; [reflexivity|].
  rewrite map_app, IH. destruct d; reflexivity.
Qed.

End Decompose.

(** ** The article extractor of [rss_to_kindle.py] *)
Section Extractor.
Import Py Env Soup RssToKindle.

Lemma raise_for_status_ok r :
  status_code r < 400 \/ 600 <= status_code r -> raise_for_status r = Ret tt.
Proof.
  intros H. unfold raise_for_status.
  destruct H as [H | H].
  - replace (400 <=? status_code r) with false by (symmetry; apply Z.leb_gt; lia).
    replace (500 <=? status_code r) with false by (symmetry; apply Z.leb_gt; lia).
    reflexivity.
  - replace (status_code r <? 500) with false by (symmetry; apply Z.ltb_ge; lia).
    replace (status_code r <? 600) with false by (symmetry; apply Z.ltb_ge; lia).
    rewrite !andb_false_r. reflexivity.
Qed.

Lemma extract_page w url soup :
  page_of w url soup -> extract_article_content w url = extract_from soup.
Proof.
  intros (r & Hget & Hst & <-). unfold extract_article_content.
  rewrite Hget, (raise_for_status_ok r Hst). reflexivity.
Qed.

Lemma extract_from_select soup :
  extract_from soup =
  match select heuristics 0 soup with
  | Some (O, b) => get_text lit_backslash_n (remove_labels b)
  | Some (_, n) => get_text lit_backslash_n n
  | None => "Could not extract article content."
  end.
Proof.
  unfold extract_from, find, heuristics, select.
  destruct (List.filter (div_with_class "post-body") _); [|reflexivity].
  destruct (List.filter (is_tag "article") _); [|reflexivity].
  destruct (List.filter (div_with_class "content") _); [|reflexivity].
  destruct (List.filter (div_with_class "post") _); reflexivity.
Qed.

(** Whatever container is chosen, its strings are trimmed, the empty ones
    are dropped, and the rest is joined with the literal ['\\n']. *)
Lemma extract_from_joined soup :
  extract_from soup = "Could not extract article content." \/
  exists container,
    extract_from soup
    = join lit_backslash_n (List.filter truthy_str (map strip (texts container))).
Proof.
  unfold extract_from.
  destruct (find (div_with_class "post-body") soup) as [b|].
  - right. exists (remove_labels b). unfold get_text.
    rewrite stripped_strings_texts. reflexivity.
  - destruct (py_or _ _) as [b|]; [right | left; reflexivity].
    exists b. unfold get_text. rewrite stripped_strings_texts. reflexivity.
Qed.

Lemma div_with_class_head cls : head_only (div_with_class cls).
Proof. intros i nm cl cs cs'. reflexivity. Qed.

Lemma prune_clean p n :
  head_only p -> Forall (fun d => p d = false) (descendants (prune p n)).
Proof.
  intros Hp. apply List.Forall_forall.
  induction n as [s|s|i nm cl cs IH] using node_ind'; simpl; try contradiction.
  intros d Hd. apply in_flat_map in Hd. destruct Hd as (c' & Hc' & Hd).
  apply in_flat_map in Hc'. destruct Hc' as (c & Hc & Hc').
  destruct (p c) eqn:Hpc; simpl in Hc'; [contradiction|].
  destruct Hc' as [<- | []].
  destruct Hd as [<- | Hd].
  - rewrite head_only_prune; assumption.
  - rewrite List.Forall_forall in IH. exact (IH c Hc d Hd).
Qed.

Lemma remove_labels_texts body :
  distinct_tags body ->
  stripped_strings (remove_labels body)
  = List.filter truthy_str (map strip (body_texts body)).
Proof.
  intros Hnd. unfold remove_labels, body_texts.
  rewrite remove_labels_prune by (assumption || reflexivity).
  rewrite stripped_strings_texts, texts_prune. reflexivity.
Qed.

End Extractor.

(** ** Claims about the extractor *)
Section ExtractorClaims.
Import Py Env Soup RssToKindle.

(** C4.  The heuristics are tried in the fixed order post-body container,
    [<article>], [content] container, [post] container, and the first one
    that matches anywhere in the page decides, whatever else the page
    holds.  In particular, a page without post-body container whose first
    [<article>] element is [a] yields the text of [a], not the failure
    message. *)
Theorem extraction_follows_priority_order (w : World) (url : string) (soup : list node) :
  page_of w url soup ->
  extract_article_content w url =
    match select heuristics 0 soup with
    | Some (O, b) => get_text lit_backslash_n (remove_labels b)
    | Some (_, n) => get_text lit_backslash_n n
    | None => "Could not extract article content."
    end
  /\ (forall a,
        absent (div_with_class "post-body") soup ->
        first_in_document (is_tag "article") soup a ->
        extract_article_content w url = get_text lit_backslash_n a).
Proof.
  intros Hpage. rewrite (extract_page w url soup Hpage). split.
  - apply extract_from_select.
  - intros a Hno Ha. unfold extract_from.
    apply find_absent in Hno. rewrite Hno.
    rewrite (find_first _ _ _ Ha). reflexivity.
Qed.

(** C4 at a page whose [<article>] comes after a [div] of class [post]. *)
Lemma extraction_follows_priority_order_witness :
  extract_article_content (Pages.serving Pages.generic_page) "http://example.org/a"
  = String "H" (String "e" (String "l" (String "l" (String "o"
      (lit_backslash_n ++ "world"))))).
Proof.
  assert (Hpage : page_of (Pages.serving Pages.generic_page) "http://example.org/a"
                    Pages.generic_page).
  { eexists. split; [reflexivity|]. split; [left; simpl; lia | reflexivity]. }
  destruct (extraction_follows_priority_order _ _ _ Hpage) as [_ H].
  rewrite (H Pages.the_article).
  - reflexivity.
  - unfold absent. simpl. repeat constructor.
  - exists [Elem 1 "html" []
              [Elem 2 "body" []
                 [Elem 3 "div" ["post"] [Text "sidebar"]; Pages.the_article]];
            Elem 2 "body" [] [Elem 3 "div" ["post"] [Text "sidebar"]; Pages.the_article];
            Elem 3 "div" ["post"] [Text "sidebar"]; Text "sidebar"],
           [Elem 5 "p" [] [Text "  Hello "]; Text "  Hello "; Text "world"].
    split; [reflexivity|]. split; [reflexivity|]. repeat constructor.
Defined.

(** C7, at a container with the two paragraphs [" a "] and ["b"]: the
    strings are trimmed and joined, but the separator is the two characters
    backslash and [n] of the literal ['\\n'], not the newline character. *)
Theorem separator_at_two_paragraphs :
  let content := extract_article_content (Pages.serving Pages.two_paragraphs) "u" in
  content = String "a" (String BACKSLASH (String "n" (String "b" EmptyString)))
  /\ content <> String "a" (String LF (String "b" EmptyString)).
Proof. split; [reflexivity | discriminate]. Qed.

(** C8.  When the page has a post-body container, the extracted content is
    made of the strings of that container that lie outside every
    [post-labels] block, trimmed, the empty ones left out: no string of a
    label block takes part in it.  After the removal the container holds no
    [post-labels] block. *)
Theorem labels_are_excluded (w : World) (url : string) (soup : list node) (body : node) :
  page_of w url soup ->
  first_in_document (div_with_class "post-body") soup body ->
  distinct_tags body ->
  extract_article_content w url
  = join lit_backslash_n (List.filter truthy_str (map strip (body_texts body)))
  /\ Forall (fun d => div_with_class "post-labels" d = false)
       (descendants (remove_labels body)).
Proof.
  intros Hpage Hbody Hnd. rewrite (extract_page w url soup Hpage).
  unfold extract_from. rewrite (find_first _ _ _ Hbody). split.
  - unfold get_text. rewrite (remove_labels_texts body Hnd). reflexivity.
  - unfold remove_labels.
    rewrite remove_labels_prune by (assumption || reflexivity).
    apply prune_clean, div_with_class_head.
Qed.

(** C8 at a container with two nested label blocks. *)
Lemma labels_are_excluded_witness :
  extract_article_content (Pages.serving Pages.labelled_page) "u"
  = "First." ++ lit_backslash_n ++ "Last.".
Proof.
  assert (Hpage : page_of (Pages.serving Pages.labelled_page) "u" Pages.labelled_page).
  { eexists. split; [reflexivity|]. split; [left; simpl; lia | reflexivity]. }
  assert (Hbody : first_in_document (div_with_class "post-body")
                    Pages.labelled_page Pages.labelled_body).
  { exists [Elem 0 "body" [] [Pages.labelled_body]], (descendants Pages.labelled_body).
    split; [reflexivity|]. split; [reflexivity|]. repeat constructor. }
  assert (Hnd : distinct_tags Pages.labelled_body).
  { unfold distinct_tags. simpl. repeat constructor; simpl; intuition discriminate. }
  destruct (labels_are_excluded _ _ _ _ Hpage Hbody Hnd) as [H _].
  rewrite H. reflexivity.
Defined.

End ExtractorClaims.

(** ** Runs of [rss_to_kindle.py] *)
Section RssToKindleRuns.
Import Py Env RssToKindle.

Lemma with_stdout_nil s : with_stdout s [] = s.
Proof. destruct s. unfold with_stdout. simpl. rewrite app_nil_r. reflexivity. Qed.

Lemma with_stdout_app s l1 l2 :
  with_stdout (with_stdout s l1) l2 = with_stdout s (l1 ++ l2).
Proof. unfold with_stdout. simpl. rewrite <- app_assoc. reflexivity. Qed.

Lemma print_with_stdout line s : print line s = (Ret tt, with_stdout s [line]).
Proof. reflexivity. Qed.

(** The loop of [main] never stops early: it makes one section per
    article, in order, and prints one line per article. *)
Lemma loop_sections w (l : list article) (acc : list article_with_content) s :
  for_each l
    (fun article acc =>
       run print ("Processing: " ++ title article);
       let content := extract_article_content w (link article) in
       ret (acc ++ [{| wc_title := title article;
                       wc_content := replace lit_backslash_n "<br>" content |}])%list)
    acc s
  = (Ret (acc ++ map (section_of w) l)%list, with_stdout s (map processing_line l)).
Proof.
  revert acc s. induction l as [|x l IH]; intros acc s; simpl.
  - rewrite app_nil_r, with_stdout_nil. reflexivity.
  - unfold bind at 1. unfold bind at 1. rewrite print_with_stdout.
    unfold ret at 1. rewrite IH, with_stdout_app, <- app_assoc. reflexivity.
Qed.

Lemma main_empty_feed w a s :
  parse_rss_feed w (rss_url a) = Ret [] -> main w a s = (Ret tt, s).
Proof. intros H. unfold main, bind, lift. rewrite H. reflexivity. Qed.

Lemma main_broken_feed w a s e :
  parse_rss_feed w (rss_url a) = Exc e -> main w a s = (Exc e, s).
Proof. intros H. unfold main, bind, lift. rewrite H. reflexivity. Qed.

Lemma main_pipeline w a s parsed :
  parse_rss_feed w (rss_url a) = Ret parsed -> parsed <> [] ->
  main w a s
  = (run convert_to_pdf w (map (section_of w) (selected a parsed)) (output_filename a);
     deliver w a)
      (with_stdout s (map processing_line (selected a parsed))).
Proof.
  intros H Hne. unfold main. unfold bind at 1. unfold lift. rewrite H.
  destruct parsed as [|x l]; [contradiction|].
  unfold bind at 1. rewrite loop_sections. reflexivity.
Qed.

Lemma convert_to_pdf_returns w articles path s :
  convert_to_pdf w articles path s = (Ret tt, after_pdf w articles path s).
Proof.
  unfold convert_to_pdf, after_pdf, try_except, bind, pdfkit_call.
  destruct (pdfkit_from_string w (pdf_html articles) path); reflexivity.
Qed.

(** [send_email] either fails to open the attachment, or returns: whatever
    the SMTP session does is caught and reported.  It never touches the
    files. *)
Lemma send_email_returns w from pw to subj body path s d :
  files s !! path = Some d ->
  exists s', send_email w from pw to subj body path s = (Ret tt, s')
             /\ files s' = files s
             /\ (exists line, stdout s' = (stdout s ++ [line])%list /\
                   (line = "Email sent successfully!" \/
                    exists ev msg, smtp w ev = Some msg /\
                                   line = "Error sending email: " ++ msg)).
Proof.
  intros Hf. unfold send_email. unfold bind at 1. unfold read_file. rewrite Hf.
  unfold try_except, bind, smtp_call, print. simpl.
  repeat match goal with
         | |- context [smtp w ?ev] => destruct (smtp w ev) eqn:?; simpl
         end;
    eexists; (split; [reflexivity|]); (split; [reflexivity|]);
    eexists; (split; [reflexivity|]);
    first [ left; reflexivity
          | right; do 2 eexists; split; [eassumption | reflexivity] ].
Qed.

Lemma send_email_no_file w from pw to subj body path s :
  files s !! path = None ->
  exists e, send_email w from pw to subj body path s = (Exc e, s).
Proof.
  intros Hf. unfold send_email. unfold bind at 1. unfold read_file. rewrite Hf.
  eexists. reflexivity.
Qed.

Lemma has_credentials_false a :
  has_credentials a = false -> forall w, deliver w a = print skip_notice.
Proof.
  unfold has_credentials, deliver, truthy_opt_str. intros H w.
  destruct (sender_email a), (sender_password a); try reflexivity.
  rewrite H. reflexivity.
Qed.

Lemma has_credentials_true a :
  has_credentials a = true ->
  exists email password,
    forall w, deliver w a = send_email w email password (kindle_email a)
                "RSS Feed Content" "Attached is your RSS feed content."
                (output_filename a).
Proof.
  unfold has_credentials, deliver, truthy_opt_str. intros H.
  destruct (sender_email a) as [e|], (sender_password a) as [p|]; simpl in H;
    try discriminate; try (rewrite andb_false_r in H; discriminate).
  exists e, p. intros w. rewrite H. reflexivity.
Qed.

End RssToKindleRuns.

(** ** Runs of [RSS_script.py] *)
Section RSSScriptRuns.
Import Py Env RSSScript.

Lemma consider_entry_eq cutoff feed entry articles s :
  consider_entry cutoff feed entry articles s
  = (Ret (articles ++ accepted cutoff feed entry)%list,
     with_stdout s (entry_log cutoff entry)).
Proof.
  unfold consider_entry, accepted, entry_log, try_except, bind, lift.
  destruct (datetime_of_parsed (published_parsed entry)) as [d|e]; simpl.
  - destruct (cutoff <=? d); simpl.
    + destruct (Env.title entry), (Env.link entry); simpl;
        rewrite ?app_nil_r, ?with_stdout_nil; reflexivity.
    + rewrite app_nil_r, with_stdout_nil. reflexivity.
  - rewrite app_nil_r. reflexivity.
Qed.

Lemma entries_loop cutoff feed (entries : list entry) articles s :
  for_each entries (consider_entry cutoff feed) articles s
  = (Ret (articles ++ flat_map (accepted cutoff feed) entries)%list,
     with_stdout s (flat_map (entry_log cutoff) entries)).
Proof.
  revert articles s. induction entries as [|e l IH]; intros articles s; simpl.
  - rewrite app_nil_r, with_stdout_nil. reflexivity.
  - unfold bind. rewrite consider_entry_eq, IH, with_stdout_app, <- app_assoc.
    reflexivity.
Qed.

Lemma feeds_loop w cutoff max_articles (feeds : list Feed.t) articles s :
  for_each feeds
    (fun feed articles =>
       run print ("Fetching " ++ Feed.name feed ++ "...");
       let parsed := feedparser_parse w (Feed.url feed) in
       for_each (slice_to parsed max_articles) (consider_entry cutoff feed) articles)
    articles s
  = (Ret (articles ++ flat_map (feed_articles w cutoff max_articles) feeds)%list,
     with_stdout s (flat_map (feed_log w cutoff max_articles) feeds)).
Proof.
  revert articles s. induction feeds as [|f l IH]; intros articles s; simpl.
  - rewrite app_nil_r, with_stdout_nil. reflexivity.
  - unfold bind at 1. unfold bind at 1. rewrite print_with_stdout.
    rewrite entries_loop, IH, !with_stdout_app, <- app_assoc. reflexivity.
Qed.

(** [fetch_articles] returns as soon as the cutoff date exists, and what it
    returns is known. *)
Lemma fetch_articles_eq w feeds max_articles days_old cutoff s :
  minus_days (now w) days_old = Ret cutoff ->
  fetch_articles w feeds max_articles days_old s
  = (Ret (flat_map (feed_articles w cutoff max_articles) feeds),
     with_stdout s (flat_map (feed_log w cutoff max_articles) feeds)).
Proof.
  intros H. unfold fetch_articles. unfold bind at 1. unfold lift. rewrite H.
  rewrite feeds_loop. reflexivity.
Qed.

Lemma fetch_articles_overflow w feeds max_articles days_old e s :
  minus_days (now w) days_old = Exc e ->
  fetch_articles w feeds max_articles days_old s = (Exc e, s).
Proof.
  intros H. unfold fetch_articles. unfold bind at 1. unfold lift. rewrite H.
  reflexivity.
Qed.

Lemma minus_days_value now days cutoff :
  minus_days now days = Ret cutoff -> cutoff = now - days * US_PER_DAY.
Proof.
  unfold minus_days. destruct (negb _); [discriminate|].
  destruct (_ && _); [|discriminate]. intros [= <-]. reflexivity.
Qed.

Lemma in_accepted cutoff feed entry a :
  In a (accepted cutoff feed entry) <->
  exists d t l,
    datetime_of_parsed (published_parsed entry) = Ret d /\ cutoff <= d /\
    Env.title entry = Some t /\ Env.link entry = Some l /\
    a = {| title := t; url := l; feed_name := Feed.name feed; date := d;
           content := None; authors := None |}.
Proof.
  unfold accepted. split.
  - destruct (datetime_of_parsed (published_parsed entry)) as [d|e]; [|contradiction].
    destruct (cutoff <=? d) eqn:Hle; [|contradiction].
    destruct (Env.title entry) as [t|]; [|contradiction].
    destruct (Env.link entry) as [l|]; [|contradiction].
    intros [<- | []]. exists d, t, l. apply Z.leb_le in Hle. auto 6.
  - intros (d & t & l & -> & Hle & -> & -> & ->).
    apply Z.leb_le in Hle. rewrite Hle. left. reflexivity.
Qed.

Lemma length_accepted cutoff feed entry :
  (List.length (accepted cutoff feed entry) <= 1)%nat.
Proof.
  unfold accepted.
  destruct (datetime_of_parsed _); simpl; [|lia].
  destruct (_ <=? _); simpl; [|lia].
  destruct (Env.title entry), (Env.link entry); simpl; lia.
Qed.

Lemma length_flat_map_accepted cutoff feed (l : list entry) :
  (List.length (flat_map (accepted cutoff feed) l) <= List.length l)%nat.
Proof.
  induction l as [|e l IH]; simpl; [lia|].
  rewrite length_app. pose proof (length_accepted cutoff feed e). lia.
Qed.

End RSSScriptRuns.

(** ** Claims about the feed reader of [RSS_script.py] *)
Section FeedClaims.
Import Py Env.

(** C2 fails on a feed whose only entry has no date: the entry is not
    among the fetched articles. *)
Lemma undated_entry_is_discarded :
  datetime_of_parsed (published_parsed Feeds.undated)
    = Exc (Exn TypeError "'NoneType' object is not subscriptable")
  /\ ~ kept_at_fetch (Feeds.world [Feeds.undated]) [Feeds.tech] 5 1 Feeds.undated.
Proof.
  split; [reflexivity|].
  intros (a & Hin & _). vm_compute in Hin. exact Hin.
Qed.

(** C2, amended.  An entry whose publication date cannot be read is
    discarded by the [try] block around it: the list of articles is left as
    it was, the error is printed, and the loop goes on.  Hence every article
    that [fetch_articles] returns carries the date read from one of the
    entries it visited. *)
Theorem unreadable_date_discards_entry (w : World) (cutoff : datetime)
    (feed : RSSScript.Feed.t) (entry : entry) (e : pyexn) :
  datetime_of_parsed (published_parsed entry) = Exc e ->
  (forall articles s,
      RSSScript.consider_entry cutoff feed entry articles s
      = (Ret articles, with_stdout s ["Error parsing entry: " ++ exn_msg e]))
  /\ (forall feeds max_articles days_old s arts s',
        RSSScript.fetch_articles w feeds max_articles days_old s = (Ret arts, s') ->
        forall a, In a arts ->
        exists f en,
          In f feeds /\
          In en (slice_to (feedparser_parse w (RSSScript.Feed.url f)) max_articles) /\
          datetime_of_parsed (published_parsed en) = Ret (RSSScript.date a) /\
          Env.title en = Some (RSSScript.title a) /\
          Env.link en = Some (RSSScript.url a)).
Proof.
  intros He. split.
  - intros articles s. rewrite consider_entry_eq.
    unfold accepted, entry_log. rewrite He, app_nil_r. reflexivity.
  - intros feeds max_articles days_old s arts s' Hrun a Ha.
    destruct (minus_days (now w) days_old) as [c|e'] eqn:Hc.
    + rewrite (fetch_articles_eq _ _ _ _ _ _ Hc) in Hrun.
      injection Hrun as <- _.
      apply in_flat_map in Ha. destruct Ha as (f & Hf & Ha).
      unfold feed_articles in Ha.
      apply in_flat_map in Ha. destruct Ha as (en & Hen & Ha).
      apply in_accepted in Ha. destruct Ha as (d & t & l & Hd & _ & Ht & Hl & ->).
      exists f, en. simpl. auto.
    + rewrite (fetch_articles_overflow _ _ _ _ _ _ Hc) in Hrun. discriminate.
Qed.

(** The amended C2 at the undated entry. *)
Lemma unreadable_date_discards_entry_witness :
  RSSScript.consider_entry 0 Feeds.tech Feeds.undated [] init
  = (Ret [], with_stdout init
               ["Error parsing entry: 'NoneType' object is not subscriptable"]).
Proof.
  exact (proj1 (unreadable_date_discards_entry (Feeds.world Feeds.five) 0 Feeds.tech
                  Feeds.undated _ eq_refl) [] init).
Defined.

(** C5.  For an entry whose date [d] can be read (and that has a title and
    a link), the [try] block appends the entry exactly when
    [d >= now - days_old]: an entry dated at the cutoff itself is kept, one
    dated before it is not.  So, among the entries that [fetch_articles]
    visits, those retained are exactly those not older than the cutoff. *)
Theorem age_filter_is_inclusive (w : World) (days_old : Z) (cutoff : datetime)
    (feed : RSSScript.Feed.t) (entry : entry) (d : datetime) (t l : string) :
  minus_days (now w) days_old = Ret cutoff ->
  datetime_of_parsed (published_parsed entry) = Ret d ->
  Env.title entry = Some t ->
  Env.link entry = Some l ->
  let a := {| RSSScript.title := t; RSSScript.url := l;
              RSSScript.feed_name := RSSScript.Feed.name feed; RSSScript.date := d;
              RSSScript.content := None; RSSScript.authors := None |} in
  (forall articles s,
      RSSScript.consider_entry cutoff feed entry articles s
      = (Ret (if now w - days_old * US_PER_DAY <=? d
              then articles ++ [a] else articles)%list, s))
  /\ (forall feeds max_articles s,
        In feed feeds ->
        In entry (slice_to (feedparser_parse w (RSSScript.Feed.url feed)) max_articles) ->
        exists arts s',
          RSSScript.fetch_articles w feeds max_articles days_old s = (Ret arts, s') /\
          (In a arts <-> now w - days_old * US_PER_DAY <= d)).
Proof.
  intros Hc Hd Ht Hl a.
  pose proof (minus_days_value _ _ _ Hc) as Hcut. split.
  - intros articles s. rewrite consider_entry_eq, <- Hcut.
    unfold accepted, entry_log. rewrite Hd, Ht, Hl.
    destruct (cutoff <=? d); rewrite ?app_nil_r, with_stdout_nil; reflexivity.
  - intros feeds max_articles s Hf He.
    rewrite (fetch_articles_eq _ _ _ _ _ _ Hc). do 2 eexists. split; [reflexivity|].
    rewrite <- Hcut. split.
    + intros Ha. apply in_flat_map in Ha. destruct Ha as (f' & _ & Ha).
      apply in_flat_map in Ha. destruct Ha as (e' & _ & Ha).
      apply in_accepted in Ha. destruct Ha as (d' & t' & l' & _ & Hle & _ & _ & Heq).
      unfold a in Heq. injection Heq as _ _ _ ->. exact Hle.
    + intros Hle. apply in_flat_map. exists feed. split; [exact Hf|].
      apply in_flat_map. exists entry. split; [exact He|].
      apply in_accepted. exists d, t, l. auto 6.
Qed.

(** C5 at the entry published exactly [days_old] days before [now]. *)
Lemma age_filter_is_inclusive_witness :
  exists arts s',
    RSSScript.fetch_articles (Feeds.world Feeds.five) [Feeds.tech] 4 1 init = (Ret arts, s') /\
    (In {| RSSScript.title := "boundary"; RSSScript.url := "https://example.org/boundary";
           RSSScript.feed_name := "Tech News";
           RSSScript.date := Feeds.noon - 1 * US_PER_DAY;
           RSSScript.content := None; RSSScript.authors := None |} arts
     <-> now (Feeds.world Feeds.five) - 1 * US_PER_DAY <= Feeds.noon - 1 * US_PER_DAY).
Proof.
  refine (proj2 (age_filter_is_inclusive (Feeds.world Feeds.five) 1
                   (Feeds.noon - 1 * US_PER_DAY) Feeds.tech Feeds.boundary
                   (Feeds.noon - 1 * US_PER_DAY) "boundary" "https://example.org/boundary"
                   _ _ _ _) [Feeds.tech] 4 init _ _).
  - reflexivity.
  - reflexivity.
  - reflexivity.
  - reflexivity.
  - left. reflexivity.
  - right. left. reflexivity.
Defined.

End FeedClaims.

(** ** The rest of [RSS_script.py] *)
Section RSSScriptPipeline.
Import Py Env RSSScript.

Lemma bind_ok {A B} (m : M A) (k : A -> M B) s a s' :
  m s = (Ret a, s') -> bind m k s = k a s'.
Proof. intros H. unfold bind. rewrite H. reflexivity. Qed.

Lemma bind_exc {A B} (m : M A) (k : A -> M B) s e s' :
  m s = (Exc e, s') -> bind m k s = (Exc e, s').
Proof. intros H. unfold bind. rewrite H. reflexivity. Qed.

(** One step of a run: the first statement is a [print], or a call whose
    outcome is given by the equation [H]. *)
Ltac printed := rewrite (bind_ok _ _ _ _ _ (print_with_stdout _ _)).
Tactic Notation "stepped" uconstr(H) := rewrite (bind_ok _ _ _ _ _ H).

Lemma extract_content_eq w a s :
  exists r, extract_content w a s = (Ret (extracted w a, r), with_stdout s (extract_log w a)).
Proof.
  unfold extract_content, extracted, extract_log.
  destruct (newspaper w (url a)) as [[text auth]|e].
  - eexists. unfold ret. rewrite with_stdout_nil. reflexivity.
  - eexists. reflexivity.
Qed.

Lemma extract_loop w (l : list article) (acc : list article) s :
  for_each l
    (fun article done =>
       do r <- extract_content w article;
       ret (done ++ [fst r])%list)
    acc s
  = (Ret (acc ++ map (extracted w) l)%list, with_stdout s (flat_map (extract_log w) l)).
Proof.
  revert acc s. induction l as [|a l IH]; intros acc s; simpl.
  - rewrite app_nil_r, with_stdout_nil. reflexivity.
  - destruct (extract_content_eq w a s) as [r Hr].
    unfold bind at 1. unfold bind at 1. rewrite Hr. unfold ret at 1. simpl.
    rewrite IH, with_stdout_app, <- app_assoc. reflexivity.
Qed.

Lemma build_chapters_eq w articles :
  build_chapters w articles = flat_map (chapters_of w) (enumerate articles).
Proof.
  unfold build_chapters.
  enough (G : forall l acc,
             fold_left
               (fun chapters '(idx, article) =>
                  match article with
                  | Some a =>
                      match content a with
                      | Some body =>
                          if truthy_str body
                          then (chapters ++
                                  [{| ch_title := title a;
                                      ch_file_name := "article_" ++ str_of_nat idx ++ ".xhtml";
                                      ch_lang := "en";
                                      ch_content := content_html w a body |}])%list
                          else chapters
                      | None => chapters
                      end
                  | None => chapters
                  end) l acc
             = (acc ++ flat_map (chapters_of w) l)%list) by apply (G _ []).
  induction l as [|[idx art] l IH]; intros acc; simpl.
  - rewrite app_nil_r. reflexivity.
  - rewrite IH. unfold chapters_of at 2. simpl.
    destruct art as [a|]; [|reflexivity].
    destruct (content a) as [body|]; [|reflexivity].
    destruct (truthy_str body); [|reflexivity].
    rewrite <- app_assoc. reflexivity.
Qed.

Lemma in_combine_seq {A} (l : list A) (k i : nat) (x : A) :
  In (i, x) (combine (seq k (List.length l)) l) ->
  (k <= i)%nat /\ nth_error l (i - k) = Some x.
Proof.
  revert k. induction l as [|y l IH]; intros k; simpl; [contradiction|].
  intros [[= <- <-] | H].
  - split; [lia|]. rewrite Nat.sub_diag. reflexivity.
  - destruct (IH _ H) as [Hle Hnth]. split; [lia|].
    replace (i - k)%nat with (S (i - S k)) by lia. exact Hnth.
Qed.

Lemma in_enumerate {A} (l : list A) i x :
  In (i, x) (enumerate l) -> nth_error l i = Some x.
Proof.
  intros H. apply in_combine_seq in H. destruct H as [_ H].
  rewrite Nat.sub_0_r in H. exact H.
Qed.

Lemma string_length_app (s t : string) :
  String.length (s ++ t) = (String.length s + String.length t)%nat.
Proof. induction s as [|c s IH]; simpl; [reflexivity | rewrite IH; reflexivity]. Qed.

Lemma string_app_cons c (s t : string) : String c s ++ t = String c (s ++ t).
Proof. reflexivity. Qed.

Lemma string_app_inv_tail (t s1 s2 : string) : s1 ++ t = s2 ++ t -> s1 = s2.
Proof.
  revert s2. induction s1 as [|c s1 IH]; intros [|c' s2] H.
  - reflexivity.
  - apply (f_equal String.length) in H. rewrite !string_length_app in H.
    simpl in H. lia.
  - apply (f_equal String.length) in H. rewrite !string_length_app in H.
    simpl in H. lia.
  - rewrite !string_app_cons in H. injection H as -> H. f_equal. apply IH. exact H.
Qed.

Lemma file_name_inj (i j : nat) :
  "article_" ++ str_of_nat i ++ ".xhtml" = "article_" ++ str_of_nat j ++ ".xhtml" -> i = j.
Proof.
  intros H. apply (inj (String.app "article_")) in H.
  apply string_app_inv_tail in H. unfold str_of_nat in H.
  apply (inj pretty) in H. exact H.
Qed.

(** The state after [create_epub], when the book can be written. *)
Lemma create_epub_eq w articles path s :
  let book := make_book w (build_chapters w articles) in
  create_epub w articles path s =
  match write_epub w path book with
  | None =>
      (Ret tt, {| stdout := stdout s ++ ["EPUB created: " ++ path];
                  files := <[path := EpubOf book]> (files s);
                  smtp_trace := smtp_trace s |})
  | Some msg => (Exc (Exn LibraryError msg), s)
  end.
Proof.
  unfold create_epub, write_epub_call, bind. simpl.
  destruct (write_epub w path _); reflexivity.
Qed.

Lemma send_to_kindle_returns w path cfg s d :
  files s !! path = Some d ->
  exists s', send_to_kindle w path cfg s = (Ret tt, s') /\ files s' = files s.
Proof.
  intros Hf. unfold send_to_kindle. unfold bind at 1. unfold read_file. rewrite Hf.
  unfold try_except, bind, smtp_call, print. simpl.
  repeat match goal with
         | |- context [Env.smtp w ?ev] => destruct (Env.smtp w ev) eqn:?; simpl
         end;
    eexists; (split; [reflexivity|]); reflexivity.
Qed.

(** A run of [main] returns as soon as the cutoff date exists and the book
    can be written; the SMTP session has no say in it, and the book stays
    on disk. *)
Lemma main_with_returns w cfg s cutoff :
  minus_days (now w) (days_old cfg) = Ret cutoff ->
  (forall path b, write_epub w path b = None) ->
  exists s' b, main_with w cfg s = (Ret tt, s') /\
               files s' !! digest_file w = Some (EpubOf b).
Proof.
  intros Hc Hw. unfold main_with.
  printed. printed. stepped (fetch_articles_eq _ _ _ _ _ _ Hc).
  printed. printed. stepped (extract_loop _ _ _ _).
  printed. printed. cbv zeta.
  match goal with
  | |- context [create_epub w ?arts ?path] =>
      pose proof (create_epub_eq w arts path) as Hce
  end.
  cbv zeta in Hce.
  match goal with
  | |- exists s' b, bind _ _ ?st = _ /\ _ => specialize (Hce st)
  end.
  rewrite Hw in Hce.
  stepped Hce. printed.
  match goal with
  | |- exists s' b, bind (send_to_kindle w ?path cfg) _ ?st = _ /\ _ =>
      destruct (send_to_kindle_returns w path cfg st
                  (EpubOf (make_book w (build_chapters w
                     (map Some ([] ++ map (extracted w)
                        (flat_map (feed_articles w cutoff (max_articles_per_feed cfg))
                           (feeds cfg)))%list)))))
        as (s1 & Hs1 & Hf1)
  end.
  { simpl. apply lookup_insert_eq. }
  stepped Hs1. printed. rewrite print_with_stdout.
  do 2 eexists. split; [reflexivity|].
  simpl. rewrite Hf1. simpl. apply lookup_insert_eq.
Qed.

End RSSScriptPipeline.

(** ** Claims about the cap, the renderer and the exit status *)
Section PipelineClaims.
Import Py Env.

Lemma slice_to_firstn {A} (l : list A) (n : Z) :
  0 <= n -> slice_to l n = firstn (Z.to_nat n) l.
Proof.
  intros H. unfold slice_to.
  replace (0 <=? n) with true by (symmetry; apply Z.leb_le; exact H). reflexivity.
Qed.

(** A negative bound is not a cap: it drops entries from the end. *)
Example slice_to_negative : slice_to [1; 2; 3] (-1) = [1; 2].
Proof. reflexivity. Qed.

(** The scenario of the specification: five entries aged 0.5, 0.9, 1.5, 2
    and 3 days, a limit of three and a maximal age of one day.  The cap
    comes first, then the filter: the first two entries are returned. *)
Example cap_then_filter :
  let aged t y m d hh mi := Feeds.item t (Feeds.at_time y m d hh mi 0) in
  let entries := [aged "a" 2024 3 10 0 0; aged "b" 2024 3 9 14 24;
                  aged "c" 2024 3 9 0 0; aged "d" 2024 3 8 12 0;
                  aged "e" 2024 3 7 12 0] in
  map RSSScript.title
    (match fst (RSSScript.fetch_articles (Feeds.world entries) [Feeds.tech] 3 1 init) with
     | Ret arts => arts
     | Exc _ => []
     end)
  = ["a"; "b"].
Proof. reflexivity. Qed.

(** C6.  For a limit that is a count ([0 <= limit]), both scripts work on
    the first [limit] entries of a feed, in the order of the feed:
    [fetch_articles] hands exactly these to its [try] block, feed after
    feed, so that at most [limit] articles come from one feed, and [main]
    of [rss_to_kindle.py] makes its sections of exactly these.  The slice is
    a prefix of the feed, never longer than the feed, and is the whole feed
    when the feed has at most [limit] entries. *)
Theorem feed_reader_takes_first_entries (w : World) (limit : Z) :
  0 <= limit ->
  (forall feeds days_old cutoff s,
      minus_days (now w) days_old = Ret cutoff ->
      exists s',
        RSSScript.fetch_articles w feeds limit days_old s
        = (Ret (flat_map
                  (fun feed =>
                     flat_map (accepted cutoff feed)
                       (firstn (Z.to_nat limit)
                          (feedparser_parse w (RSSScript.Feed.url feed))))
                  feeds), s')
        /\ forall feed,
             (List.length (feed_articles w cutoff limit feed) <= Z.to_nat limit)%nat)
  /\ (forall a s parsed,
        RssToKindle.max_articles a = limit ->
        RssToKindle.parse_rss_feed w (RssToKindle.rss_url a) = Ret parsed ->
        parsed <> [] ->
        RssToKindle.main w a s
        = (run RssToKindle.convert_to_pdf w
                 (map (section_of w) (firstn (Z.to_nat limit) parsed))
                 (RssToKindle.output_filename a);
           deliver w a)
            (with_stdout s (map processing_line (firstn (Z.to_nat limit) parsed))))
  /\ (forall (A : Type) (entries : list A),
        let visited := slice_to entries limit in
        visited = firstn (Z.to_nat limit) entries
        /\ (List.length visited <= Z.to_nat limit)%nat
        /\ (exists rest, entries = (visited ++ rest)%list)
        /\ (Z.of_nat (List.length entries) <= limit -> visited = entries)).
Proof.
  intros Hpos. split; [|split].
  - intros feeds days_old cutoff s Hc.
    rewrite (fetch_articles_eq _ _ _ _ _ _ Hc). eexists. split.
    + f_equal. f_equal. apply flat_map_ext_in. intros f _.
      unfold feed_articles. rewrite slice_to_firstn by exact Hpos. reflexivity.
    + intros feed. unfold feed_articles. rewrite slice_to_firstn by exact Hpos.
      etransitivity; [apply length_flat_map_accepted|].
      rewrite length_firstn. lia.
  - intros a s parsed Hlim Hparse Hne.
    rewrite (main_pipeline w a s parsed Hparse Hne).
    unfold selected. rewrite Hlim, slice_to_firstn by exact Hpos. reflexivity.
  - intros A entries visited. unfold visited.
    rewrite slice_to_firstn by exact Hpos. repeat split.
    + rewrite length_firstn. lia.
    + exists (skipn (Z.to_nat limit) entries). symmetry. apply firstn_skipn.
    + intros Hlen. apply firstn_all2. lia.
Qed.

(** C6 at a limit of four and a feed of five entries: the fifth, though
    recent, is not visited. *)
Lemma feed_reader_takes_first_entries_witness :
  exists s',
    RSSScript.fetch_articles (Feeds.world Feeds.five) [Feeds.tech] 4 1 init
    = (Ret [ {| RSSScript.title := "fresh"; RSSScript.url := "https://example.org/fresh";
               RSSScript.feed_name := "Tech News";
               RSSScript.date := Feeds.noon - 12 * 3600 * 1000000;
               RSSScript.content := None; RSSScript.authors := None |};
             {| RSSScript.title := "boundary"; RSSScript.url := "https://example.org/boundary";
               RSSScript.feed_name := "Tech News";
               RSSScript.date := Feeds.noon - 1 * US_PER_DAY;
               RSSScript.content := None; RSSScript.authors := None |} ], s').
Proof.
  assert (Hpos : 0 <= 4) by lia.
  destruct (proj1 (feed_reader_takes_first_entries (Feeds.world Feeds.five) 4 Hpos)
              [Feeds.tech] 1 (Feeds.noon - 1 * US_PER_DAY) init eq_refl)
    as (s' & Hrun & _).
  exists s'. rewrite Hrun. reflexivity.
Defined.

(** C9.  Every chapter of the book comes from an article of the input list
    that has a non-empty content, and carries the position of that article
    in its file name; an entry of the list that is [None], or whose content
    is absent or empty, has no chapter.  The chapters are the table of
    contents and, after the navigation page, the spine of the book that
    [create_epub] writes. *)
Theorem sections_only_for_content (w : World) (articles : list (option RSSScript.article)) :
  let chapters := RSSScript.build_chapters w articles in
  (forall c, In c chapters ->
     exists idx a body,
       nth_error articles idx = Some (Some a) /\
       RSSScript.content a = Some body /\ body <> EmptyString /\
       c = chapter_of w idx a body)
  /\ (forall idx art,
        nth_error articles idx = Some art ->
        has_content art = false ->
        forall c, In c chapters ->
        ch_file_name c <> "article_" ++ str_of_nat idx ++ ".xhtml")
  /\ (forall path s,
        let book := RSSScript.make_book w chapters in
        toc book = chapters /\ spine book = SpineNav :: map SpineChapter chapters /\
        (write_epub w path book = None ->
         files (snd (RSSScript.create_epub w articles path s)) !! path = Some (EpubOf book))).
Proof.
  intros chapters.
  assert (Hfrom : forall c, In c chapters ->
            exists idx a body,
              nth_error articles idx = Some (Some a) /\
              RSSScript.content a = Some body /\ body <> EmptyString /\
              c = chapter_of w idx a body).
  { intros c Hc. unfold chapters in Hc. rewrite build_chapters_eq in Hc.
    apply in_flat_map in Hc. destruct Hc as ([idx art] & Hin & Hc).
    apply in_enumerate in Hin. unfold chapters_of in Hc. simpl in Hc.
    destruct art as [a|]; [|contradiction].
    destruct (RSSScript.content a) as [body|] eqn:Hb; [|contradiction].
    destruct body as [|ch body]; simpl in Hc; [contradiction|].
    destruct Hc as [<- | []]. exists idx, a, (String ch body).
    repeat split; auto; discriminate. }
  split; [exact Hfrom|]. split.
  - intros idx art Hnth Hno c Hc Hname.
    destruct (Hfrom c Hc) as (idx' & a & body & Hnth' & Hb & Hne & ->).
    simpl in Hname. apply file_name_inj in Hname. subst idx'.
    rewrite Hnth in Hnth'. injection Hnth' as ->.
    unfold has_content, truthy_opt_str in Hno. rewrite Hb in Hno.
    destruct body; [congruence | discriminate].
  - intros path s book. split; [reflexivity|]. split; [reflexivity|].
    intros Hw. pose proof (create_epub_eq w articles path s) as H.
    cbv zeta in H. fold chapters in H. fold book in H. rewrite Hw in H.
    rewrite H. simpl. apply lookup_insert_eq.
Qed.

End PipelineClaims.

(** ** Claims about failures in [rss_to_kindle.py] *)
Section FailureClaims.
Import Py Env RssToKindle.

Lemma extract_article_content_eq w url :
  extract_article_content w url =
  match requests_get w url with
  | HttpRaises e => "Error fetching article: " ++ e
  | HttpResponse r =>
      match raise_for_status r with
      | Exc e => "Error fetching article: " ++ exn_msg e
      | Ret _ => extract_from (content r)
      end
  end.
Proof. reflexivity. Qed.

(** C1 fails when the request for the only article is refused: the PDF
    is rendered with a section for it, the error text as its content. *)
Lemma failed_article_is_rendered :
  extraction_fails (Feeds.world [Feeds.fresh]) "https://example.org/fresh" = true
  /\ files (snd (main (Feeds.world [Feeds.fresh]) no_credentials init)) !! "rss_feed.pdf"
     = Some (PdfOf ("<html><head><meta charset='utf-8'></head><body>"
                    ++ "<h1>fresh</h1>"
                    ++ "<div>Error fetching article: connection refused</div><hr>"
                    ++ "</body></html>"))
  /\ ~ failed_articles_excluded (Feeds.world [Feeds.fresh]) no_credentials.
Proof.
  split; [reflexivity|]. split; [vm_compute; reflexivity|].
  intros H. specialize (H _ eq_refl). vm_compute in H. discriminate.
Qed.

(** C1, amended.  The run goes on after a failed extraction, and the
    article is kept: [main] makes one section per article it works on, in
    order, and the section of an article whose extraction fails holds the
    diagnostic text in place of a content. *)
Theorem failed_extraction_keeps_article (w : World) (a : args) (s : sys)
    (parsed : list article) :
  parse_rss_feed w (rss_url a) = Ret parsed ->
  parsed <> [] ->
  main w a s
  = (run convert_to_pdf w (map (section_of w) (selected a parsed)) (output_filename a);
     deliver w a)
      (with_stdout s (map processing_line (selected a parsed)))
  /\ (forall article,
        extraction_fails w (link article) = true ->
        exists diagnostic,
          wc_content (section_of w article) = replace lit_backslash_n "<br>" diagnostic /\
          (diagnostic = "Could not extract article content." \/
           exists cause, diagnostic = "Error fetching article: " ++ cause)).
Proof.
  intros Hparse Hne. split; [apply main_pipeline; assumption|].
  intros article Hfail. unfold section_of. simpl.
  unfold extraction_fails in Hfail. rewrite extract_article_content_eq.
  destruct (requests_get w (link article)) as [msg|r].
  - eexists. split; [reflexivity|]. right. eexists. reflexivity.
  - destruct (raise_for_status r) as [[]|e].
    + rewrite extract_from_select.
      destruct (select heuristics 0 (content r)); [discriminate|].
      eexists. split; [reflexivity|]. left. reflexivity.
    + eexists. split; [reflexivity|]. right. eexists. reflexivity.
Qed.

(** The amended C1 at the refused request. *)
Lemma failed_extraction_keeps_article_witness :
  wc_content (section_of (Feeds.world [Feeds.fresh])
                {| title := "fresh"; link := "https://example.org/fresh" |})
  = "Error fetching article: connection refused".
Proof.
  destruct (failed_extraction_keeps_article (Feeds.world [Feeds.fresh]) no_credentials init
              [{| title := "fresh"; link := "https://example.org/fresh" |}]
              eq_refl ltac:(discriminate)) as [_ H].
  destruct (H {| title := "fresh"; link := "https://example.org/fresh" |} eq_refl)
    as (diagnostic & Hd & _).
  reflexivity.
Defined.

(** C3 fails when the SMTP server refuses the login: the delivery has
    failed, the document is on disk, and the exit status is zero. *)
Lemma refused_login_exits_zero :
  let out := main (Feeds.world [Feeds.fresh]) with_credentials init in
  delivery_failed (Feeds.world [Feeds.fresh]) (snd out) = true
  /\ document_missing "rss_feed.pdf" (snd out) = false
  /\ exit_code (fst out) = 0
  /\ ~ exit_status_reports_failure (Feeds.world [Feeds.fresh]) with_credentials.
Proof.
  split; [vm_compute; reflexivity|]. split; [vm_compute; reflexivity|].
  split; [vm_compute; reflexivity|].
  intros [H _]. apply H; [right; vm_compute; reflexivity | vm_compute; reflexivity].
Qed.

Lemma main_exit_code (w : World) (a : args) (s : sys) :
  exit_code (fst (main w a s)) = 0 <->
  exists parsed,
    parse_rss_feed w (rss_url a) = Ret parsed /\
    (parsed = [] \/ has_credentials a = false \/
     pdfkit_from_string w (pdf_html (map (section_of w) (selected a parsed)))
       (output_filename a) = None \/
     is_Some (files s !! output_filename a)).
Proof.
  destruct (parse_rss_feed w (rss_url a)) as [parsed|e] eqn:Hparse.
  - destruct parsed as [|x l].
    + rewrite (main_empty_feed _ _ _ Hparse). simpl. split; [|reflexivity].
      intros _. exists []. auto.
    + rewrite (main_pipeline _ _ _ _ Hparse) by discriminate.
      rewrite (bind_ok _ _ _ _ _ (convert_to_pdf_returns _ _ _ _)).
      set (sel := selected a (x :: l)).
      set (st := after_pdf w (map (section_of w) sel) (output_filename a)
                   (with_stdout s (map processing_line sel))).
      assert (Hfiles : files st !! output_filename a = None <->
                pdfkit_from_string w (pdf_html (map (section_of w) sel))
                  (output_filename a) <> None /\
                files s !! output_filename a = None).
      { unfold st, after_pdf.
        destruct (pdfkit_from_string w _ _) as [msg|]; simpl.
        - split; [intros H; split; [discriminate | exact H] | intros [_ H]; exact H].
        - rewrite lookup_insert_eq. split; [discriminate | intros [H _]; congruence]. }
      destruct (has_credentials a) eqn:Hcred.
      * destruct (has_credentials_true a Hcred) as (email & pw & Hd). rewrite Hd.
        destruct (files st !! output_filename a) as [d|] eqn:Hf.
        -- destruct (send_email_returns w email pw (kindle_email a) "RSS Feed Content"
                       "Attached is your RSS feed content." _ st d Hf) as (s' & -> & _).
           simpl. split; [|reflexivity]. intros _. exists (x :: l). split; [reflexivity|].
           right. right.
           destruct (pdfkit_from_string w (pdf_html (map (section_of w) sel))
                       (output_filename a)) eqn:Hp; [|left; exact Hp].
           right. destruct (files s !! output_filename a) eqn:Hs; [eauto|].
           exfalso. assert (Hn : Some d = None).
           { apply Hfiles. split; [discriminate | reflexivity]. }
           discriminate.
        -- destruct (send_email_no_file w email pw (kindle_email a) "RSS Feed Content"
                       "Attached is your RSS feed content." _ st Hf) as (e & ->).
           simpl. split; [lia|].
           destruct (proj1 Hfiles eq_refl) as [Hnp Hs].
           intros (parsed & [= <-] & [H | [H | [H | H]]]).
           ++ discriminate.
           ++ discriminate.
           ++ destruct (Hnp H).
           ++ rewrite Hs in H. destruct H as [? H]. discriminate.
      * rewrite (has_credentials_false a Hcred). rewrite print_with_stdout. simpl.
        split; [|reflexivity]. intros _. exists (x :: l). auto.
  - rewrite (main_broken_feed _ _ _ _ Hparse). simpl. split; [lia|].
    intros (parsed & H & _). discriminate.
Qed.

End FailureClaims.

(** ** Claims about the exit status and the delivery step *)
Section DeliveryClaims.
Import Py Env.

(** C3, amended.  The exit status is zero whenever [main] returns, and
    only an exception that escapes [main] makes it non-zero; a failed
    delivery is not one: it is caught, reported on the standard output, and
    leaves the document on disk.  For [rss_to_kindle.py] the status is zero
    exactly when every entry has a title and a link and either the feed is
    empty, or the credentials are missing, or the attachment can be opened
    (the PDF was just written, or a file of that name was there before).
    For [RSS_script.py] it is zero as soon as the cutoff date exists and
    the book can be written.  Failed extractions never matter. *)
Theorem exit_status_ignores_delivery :
  (forall w a s,
      exit_code (fst (RssToKindle.main w a s)) = 0 <->
      exists parsed,
        RssToKindle.parse_rss_feed w (RssToKindle.rss_url a) = Ret parsed /\
        (parsed = [] \/ has_credentials a = false \/
         pdfkit_from_string w (RssToKindle.pdf_html (map (section_of w) (selected a parsed)))
           (RssToKindle.output_filename a) = None \/
         is_Some (files s !! RssToKindle.output_filename a)))
  /\ (forall w a s parsed,
        RssToKindle.parse_rss_feed w (RssToKindle.rss_url a) = Ret parsed ->
        parsed <> [] ->
        has_credentials a = true ->
        let html := RssToKindle.pdf_html (map (section_of w) (selected a parsed)) in
        pdfkit_from_string w html (RssToKindle.output_filename a) = None ->
        exists s' line,
          RssToKindle.main w a s = (Ret tt, s') /\
          files s' !! RssToKindle.output_filename a = Some (PdfOf html) /\
          last (stdout s') = Some line /\
          (line = "Email sent successfully!" \/
           exists ev msg, smtp w ev = Some msg /\ line = "Error sending email: " ++ msg))
  /\ (forall w cfg s cutoff,
        minus_days (now w) (RSSScript.days_old cfg) = Ret cutoff ->
        (forall path b, write_epub w path b = None) ->
        exists s' b,
          RSSScript.main_with w cfg s = (Ret tt, s') /\
          files s' !! digest_file w = Some (EpubOf b)).
Proof.
  split; [exact main_exit_code|]. split; [|exact main_with_returns].
  intros w a s parsed Hparse Hne Hcred html Hpdf.
  rewrite (main_pipeline _ _ _ _ Hparse Hne).
  rewrite (bind_ok _ _ _ _ _ (convert_to_pdf_returns _ _ _ _)).
  destruct (has_credentials_true a Hcred) as (email & pw & Hd). rewrite Hd.
  set (st := after_pdf w _ _ _).
  assert (Hf : files st !! RssToKindle.output_filename a = Some (PdfOf html)).
  { unfold st, after_pdf. fold html. rewrite Hpdf. simpl. apply lookup_insert_eq. }
  destruct (send_email_returns w email pw (RssToKindle.kindle_email a) "RSS Feed Content"
              "Attached is your RSS feed content." _ st _ Hf)
    as (s' & Hrun & Hfiles & line & Hout & Hline).
  exists s', line. split; [exact Hrun|]. split; [rewrite Hfiles; exact Hf|].
  split; [rewrite Hout; apply last_snoc | exact Hline].
Qed.

(** The amended C3 at a refused login, for both scripts. *)
Lemma exit_status_ignores_delivery_witness :
  (exists s',
      RssToKindle.main (Feeds.world [Feeds.fresh]) with_credentials init = (Ret tt, s') /\
      is_Some (files s' !! "rss_feed.pdf") /\
      last (stdout s')
      = Some "Error sending email: (535, b'5.7.8 Username and Password not accepted')")
  /\ (exists s',
        RSSScript.main_with (Feeds.world Feeds.five) RSSScript.CONFIG init = (Ret tt, s') /\
        is_Some (files s' !! "digest_%Y%m%d.epub")).
Proof.
  destruct exit_status_ignores_delivery as (_ & Hpdf & Hepub). split.
  - destruct (Hpdf (Feeds.world [Feeds.fresh]) with_credentials init
                [{| RssToKindle.title := "fresh";
                    RssToKindle.link := "https://example.org/fresh" |}]
                eq_refl ltac:(discriminate) eq_refl eq_refl)
      as (s' & line & Hrun & Hfile & Hlast & _).
    exists s'. split; [exact Hrun|]. split; [eexists; exact Hfile|].
    pose proof (f_equal snd Hrun) as Hs. change (snd (Ret tt, s')) with s' in Hs.
    rewrite <- Hs. vm_compute. reflexivity.
  - destruct (Hepub (Feeds.world Feeds.five) RSSScript.CONFIG init
                (Feeds.noon - 1 * US_PER_DAY) eq_refl (fun _ _ => eq_refl))
      as (s' & b & Hrun & Hfile).
    exists s'. split; [exact Hrun|]. eexists. exact Hfile.
Defined.

(** C10 fails on an empty feed: without credentials [main] neither writes
    a PDF nor prints the notice. *)
Lemma empty_feed_renders_nothing :
  let out := RssToKindle.main (Feeds.world []) no_credentials init in
  document_missing "rss_feed.pdf" (snd out) = true
  /\ stdout (snd out) = []
  /\ ~ skips_delivery_and_still_renders (Feeds.world []) no_credentials.
Proof.
  split; [vm_compute; reflexivity|]. split; [vm_compute; reflexivity|].
  intros H. destruct (H eq_refl) as (_ & Hdoc & _). vm_compute in Hdoc. discriminate.
Qed.

(** C10, amended.  When the sender e-mail or the sender password is
    missing (absent or empty) and the feed has at least one entry, [main]
    runs the PDF conversion, opens no SMTP session, prints the notice last
    and returns; the PDF is on disk whenever the converter succeeds, and
    its failure is reported without stopping the run. *)
Theorem missing_credentials_skip_delivery (w : World) (a : RssToKindle.args) (s : sys)
    (parsed : list RssToKindle.article) :
  has_credentials a = false ->
  RssToKindle.parse_rss_feed w (RssToKindle.rss_url a) = Ret parsed ->
  parsed <> [] ->
  let path := RssToKindle.output_filename a in
  let html := RssToKindle.pdf_html (map (section_of w) (selected a parsed)) in
  exists s',
    RssToKindle.main w a s = (Ret tt, s')
    /\ smtp_trace s' = smtp_trace s
    /\ last (stdout s') = Some RssToKindle.skip_notice
    /\ (pdfkit_from_string w html path = None -> files s' !! path = Some (PdfOf html))
    /\ (forall msg, pdfkit_from_string w html path = Some msg ->
          In ("Error creating PDF: " ++ msg) (stdout s') /\ files s' = files s).
Proof.
  intros Hcred Hparse Hne path html.
  rewrite (main_pipeline _ _ _ _ Hparse Hne).
  rewrite (bind_ok _ _ _ _ _ (convert_to_pdf_returns _ _ _ _)).
  rewrite (has_credentials_false a Hcred), print_with_stdout.
  eexists. split; [reflexivity|].
  unfold after_pdf. fold path. fold html.
  destruct (pdfkit_from_string w html path) as [msg|]; simpl.
  - split; [reflexivity|]. split; [apply last_snoc|].
    split; [discriminate|]. intros msg' [= <-]. split; [|reflexivity].
    apply in_or_app. left. apply in_or_app. right. left. reflexivity.
  - split; [reflexivity|]. split; [apply last_snoc|].
    split; [intros _; apply lookup_insert_eq | discriminate].
Qed.

(** The amended C10 at a feed of one entry. *)
Lemma missing_credentials_skip_delivery_witness :
  exists s',
    RssToKindle.main (Feeds.world [Feeds.fresh]) no_credentials init = (Ret tt, s')
    /\ smtp_trace s' = []
    /\ last (stdout s') = Some RssToKindle.skip_notice
    /\ is_Some (files s' !! "rss_feed.pdf").
Proof.
  destruct (missing_credentials_skip_delivery (Feeds.world [Feeds.fresh]) no_credentials init
              [{| RssToKindle.title := "fresh";
                  RssToKindle.link := "https://example.org/fresh" |}]
              eq_refl eq_refl ltac:(discriminate))
    as (s' & Hrun & Htrace & Hlast & Hpdf & _).
  exists s'. split; [exact Hrun|]. split; [exact Htrace|]. split; [exact Hlast|].
  eexists. exact (Hpdf eq_refl).
Defined.

End DeliveryClaims.

(** * Further properties *)

(** One step of a run whose outcome is given by the equation [H], and one
    [print]. *)
Tactic Notation "next" uconstr(H) := rewrite (bind_ok _ _ _ _ _ H).
Ltac next_print := rewrite (bind_ok _ _ _ _ _ (print_with_stdout _ _)).

(** ** SMTP sessions *)
Section Sessions.
Import Py Env.

Lemma attempted_prefix w calls : exists rest, calls = (attempted w calls ++ rest)%list.
Proof.
  induction calls as [|ev calls [rest IH]]; simpl.
  - exists []. reflexivity.
  - destruct (smtp w ev).
    + exists calls. reflexivity.
    + exists rest. simpl. f_equal. exact IH.
Qed.

Lemma refusal_none w calls :
  refusal w calls = None <-> Forall (accepts w) calls.
Proof.
  unfold accepts. induction calls as [|ev calls IH]; simpl.
  - split; [constructor | reflexivity].
  - destruct (smtp w ev) eqn:He.
    + split; [discriminate|]. intros H. inversion H; congruence.
    + rewrite IH. split; [intros H; constructor; assumption | intros H; inversion H; assumption].
Qed.

Lemma attempted_all w calls :
  Forall (accepts w) calls -> attempted w calls = calls.
Proof.
  unfold accepts. induction 1 as [|ev calls He _ IH]; simpl; [reflexivity|].
  rewrite He, IH. reflexivity.
Qed.

Lemma attempted_accepted w calls :
  Forall (accepts w) (removelast (attempted w calls)).
Proof.
  induction calls as [|ev calls IH]; simpl; [constructor|].
  destruct (smtp w ev) eqn:He; simpl; [constructor|].
  destruct (attempted w calls) eqn:Ha; [constructor|].
  constructor; [exact He | exact IH].
Qed.

Lemma refusal_last w calls msg :
  refusal w calls = Some msg ->
  exists ev, last (attempted w calls) = Some ev /\ smtp w ev = Some msg.
Proof.
  induction calls as [|ev calls IH]; simpl; [discriminate|].
  destruct (smtp w ev) eqn:He.
  - intros [= <-]. exists ev. split; [reflexivity | exact He].
  - intros H. destruct (IH H) as (ev' & Hl & He'). exists ev'. split; [|exact He'].
    destruct (attempted w calls); [discriminate | exact Hl].
Qed.

(** A chain of SMTP calls followed by [k]: the calls are made in order
    until one is refused; [k] runs only when none is. *)
Lemma calls_then w (calls : list smtp_event) (k : M unit) s :
  fold_right (fun ev m => run smtp_call w ev; m) k calls s
  = match refusal w calls with
    | None => k (with_calls s calls)
    | Some msg => (Exc (Exn SMTPException msg), with_calls s (attempted w calls))
    end.
Proof.
  revert s. induction calls as [|ev calls IH]; intros s; simpl.
  - unfold with_calls. rewrite app_nil_r. destruct s; reflexivity.
  - unfold bind at 1. unfold smtp_call at 1.
    destruct (smtp w ev) eqn:He.
    + reflexivity.
    + rewrite IH. unfold with_calls. simpl.
      destruct (refusal w calls); rewrite <- app_assoc; reflexivity.
Qed.

(** The state after a session, and the line that reports it. *)
Lemma session_outcome w (calls : list smtp_event) (ok : string) s :
  try_except
    (fold_right (fun ev m => run smtp_call w ev; m) (print ok) calls)
    (fun e => print ("Error sending email: " ++ exn_msg e)) s
  = (Ret tt,
     with_stdout (with_calls s (attempted w calls))
       [match refusal w calls with
        | None => ok
        | Some msg => "Error sending email: " ++ msg
        end]).
Proof.
  unfold try_except. rewrite calls_then.
  destruct (refusal w calls) eqn:Hr.
  - reflexivity.
  - apply refusal_none in Hr. rewrite (attempted_all _ _ Hr). reflexivity.
Qed.

Lemma send_email_eq w sender pw recipient subject body path s d :
  files s !! path = Some d ->
  let calls := session "smtp.gmail.com" 587 sender pw
                 (mail_of sender recipient subject body path d) in
  RssToKindle.send_email w sender pw recipient subject body path s
  = (Ret tt,
     with_stdout (with_calls s (attempted w calls))
       [match refusal w calls with
        | None => "Email sent successfully!"
        | Some msg => "Error sending email: " ++ msg
        end]).
Proof.
  intros Hf calls. unfold RssToKindle.send_email. unfold bind at 1.
  unfold read_file. rewrite Hf. cbv zeta.
  exact (session_outcome w calls "Email sent successfully!" s).
Qed.

Lemma send_to_kindle_eq w path cfg s d :
  files s !! path = Some d ->
  let calls := digest_session w cfg path d in
  RSSScript.send_to_kindle w path cfg s
  = (Ret tt,
     with_stdout (with_calls s (attempted w calls))
       [match refusal w calls with
        | None => "Email sent to " ++ RSSScript.kindle_email cfg
        | Some msg => "Error sending email: " ++ msg
        end]).
Proof.
  intros Hf calls. unfold RSSScript.send_to_kindle. unfold bind at 1.
  unfold read_file. rewrite Hf. cbv zeta.
  exact (session_outcome w calls ("Email sent to " ++ RSSScript.kindle_email cfg) s).
Qed.

End Sessions.

(** ** Delivery *)
Section Delivery.
Import Py Env.

Lemma session_facts w calls :
  (exists rest, calls = (attempted w calls ++ rest)%list)
  /\ Forall (accepts w) (removelast (attempted w calls))
  /\ ((Forall (accepts w) calls /\ attempted w calls = calls /\ refusal w calls = None)
      \/ (exists ev msg, last (attempted w calls) = Some ev /\ smtp w ev = Some msg /\
                         refusal w calls = Some msg)).
Proof.
  split; [apply attempted_prefix|]. split; [apply attempted_accepted|].
  destruct (refusal w calls) as [msg|] eqn:Hr.
  - right. destruct (refusal_last _ _ _ Hr) as (ev & Hl & He). eauto.
  - left. apply refusal_none in Hr. auto using attempted_all.
Qed.

(** X1.  Once the attachment is read, [send_email] returns whatever the
    server does.  The calls are made in the order connect, STARTTLS, login,
    send, quit, and stop at the first one that is refused: every call but
    the last one made was accepted, so the login is never sent unless
    STARTTLS was accepted, and after a refusal [quit] is not called.  The
    line printed is the success line exactly when all five calls were
    accepted, and the message of the refusal otherwise.  No file is touched. *)
Theorem send_email_session (w : World)
    (sender pw recipient subject body path : string) (s : sys) (d : document) :
  files s !! path = Some d ->
  let calls := session "smtp.gmail.com" 587 sender pw
                 (mail_of sender recipient subject body path d) in
  exists s' made,
    RssToKindle.send_email w sender pw recipient subject body path s = (Ret tt, s')
    /\ files s' = files s
    /\ smtp_trace s' = (smtp_trace s ++ made)%list
    /\ (exists rest, calls = (made ++ rest)%list)
    /\ Forall (accepts w) (removelast made)
    /\ ((Forall (accepts w) calls /\ made = calls /\
         stdout s' = (stdout s ++ ["Email sent successfully!"])%list)
        \/ (exists ev msg, last made = Some ev /\ smtp w ev = Some msg /\
              stdout s' = (stdout s ++ [("Error sending email: " ++ msg)%string])%list)).
Proof.
  intros Hf calls. rewrite (send_email_eq _ _ _ _ _ _ _ _ _ Hf). fold calls.
  destruct (session_facts w calls) as (Hpre & Hacc & Hout).
  exists (with_stdout (with_calls s (attempted w calls))
            [match refusal w calls with
             | None => "Email sent successfully!"
             | Some msg => "Error sending email: " ++ msg
             end]), (attempted w calls).
  split; [reflexivity|]. split; [reflexivity|]. split; [reflexivity|].
  split; [exact Hpre|]. split; [exact Hacc|].
  destruct Hout as [(Hall & Hmade & Hr) | (ev & msg & Hl & He & Hr)]; rewrite Hr.
  - left. auto.
  - right. exists ev, msg. auto.
Qed.

(** [send_email_session] on a concrete run. *)
Lemma send_email_session_witness :
  exists s',
    RssToKindle.send_email (Feeds.world []) "me@example.org" "secret" "reader@kindle.com"
      "RSS Feed Content" "Attached is your RSS feed content." "rss_feed.pdf"
      (on_disk "rss_feed.pdf" (PdfOf "<html></html>")) = (Ret tt, s')
    /\ smtp_trace s'
       = [SmtpConnect "smtp.gmail.com" 587; SmtpStartTls; SmtpLogin "me@example.org" "secret"].
Proof.
  destruct (send_email_session (Feeds.world []) "me@example.org" "secret" "reader@kindle.com"
              "RSS Feed Content" "Attached is your RSS feed content." "rss_feed.pdf"
              (on_disk "rss_feed.pdf" (PdfOf "<html></html>")) (PdfOf "<html></html>")
              eq_refl)
    as (s' & made & Hrun & _).
  exists s'. split; [exact Hrun|].
  pose proof (f_equal snd Hrun) as Hs. change (snd (Ret tt, s')) with s' in Hs.
  rewrite <- Hs. vm_compute. reflexivity.
Defined.

(** X2.  The same holds of [send_to_kindle], with the host, the port and
    the account of the configuration: the calls are made in order up to the
    first refusal, which is caught and printed; [quit] follows only an
    accepted message; the book on disk is not touched. *)
Theorem send_to_kindle_session (w : World) (path : string) (cfg : RSSScript.config)
    (s : sys) (d : document) :
  files s !! path = Some d ->
  let calls := digest_session w cfg path d in
  exists s' made,
    RSSScript.send_to_kindle w path cfg s = (Ret tt, s')
    /\ files s' = files s
    /\ smtp_trace s' = (smtp_trace s ++ made)%list
    /\ (exists rest, calls = (made ++ rest)%list)
    /\ Forall (accepts w) (removelast made)
    /\ ((Forall (accepts w) calls /\ made = calls /\
         stdout s' = (stdout s ++ [("Email sent to " ++ RSSScript.kindle_email cfg)%string])%list)
        \/ (exists ev msg, last made = Some ev /\ smtp w ev = Some msg /\
              stdout s' = (stdout s ++ [("Error sending email: " ++ msg)%string])%list)).
Proof.
  intros Hf calls. rewrite (send_to_kindle_eq _ _ _ _ _ Hf). fold calls.
  destruct (session_facts w calls) as (Hpre & Hacc & Hout).
  exists (with_stdout (with_calls s (attempted w calls))
            [match refusal w calls with
             | None => "Email sent to " ++ RSSScript.kindle_email cfg
             | Some msg => "Error sending email: " ++ msg
             end]), (attempted w calls).
  split; [reflexivity|]. split; [reflexivity|]. split; [reflexivity|].
  split; [exact Hpre|]. split; [exact Hacc|].
  destruct Hout as [(Hall & Hmade & Hr) | (ev & msg & Hl & He & Hr)]; rewrite Hr.
  - left. auto.
  - right. exists ev, msg. auto.
Qed.

(** [send_to_kindle_session] on a concrete run. *)
Lemma send_to_kindle_session_witness :
  exists s',
    RSSScript.send_to_kindle (Pages.serving []) "digest.epub" RSSScript.CONFIG
      (on_disk "digest.epub" (Blob "book")) = (Ret tt, s')
    /\ stdout s' = ["Email sent to yourname@kindle.com"]
    /\ List.length (smtp_trace s') = 5%nat.
Proof.
  destruct (send_to_kindle_session (Pages.serving []) "digest.epub" RSSScript.CONFIG
              (on_disk "digest.epub" (Blob "book")) (Blob "book") eq_refl)
    as (s' & made & Hrun & _).
  exists s'. split; [exact Hrun|].
  pose proof (f_equal snd Hrun) as Hs. change (snd (Ret tt, s')) with s' in Hs.
  rewrite <- Hs. vm_compute. split; reflexivity.
Defined.

End Delivery.

(** ** [main] of [rss_to_kindle.py], step by step *)
Section MainSteps.
Import Py Env RssToKindle.

Lemma credentials_deliver w a email password :
  credentials a = Some (email, password) ->
  deliver w a = send_email w email password (kindle_email a)
                  "RSS Feed Content" "Attached is your RSS feed content."
                  (output_filename a).
Proof.
  unfold credentials, deliver.
  destruct (sender_email a) as [e|]; [|discriminate].
  destruct (sender_password a) as [p|]; [|discriminate].
  destruct (truthy_str e && truthy_str p); [|discriminate].
  intros [= <- <-]. reflexivity.
Qed.

Lemma credentials_none a : credentials a = None -> has_credentials a = false.
Proof.
  unfold credentials, has_credentials, truthy_opt_str.
  destruct (sender_email a) as [e|]; [|reflexivity].
  destruct (sender_password a) as [p|]; [|intros _; apply andb_false_r].
  destruct (truthy_str e && truthy_str p); [discriminate | reflexivity].
Qed.

(** With credentials and a feed that is not empty, [main] is the loop, the
    conversion and [send_email]. *)
Lemma main_with_credentials w a s parsed email password :
  parse_rss_feed w (rss_url a) = Ret parsed -> parsed <> [] ->
  credentials a = Some (email, password) ->
  main w a s
  = send_email w email password (kindle_email a)
      "RSS Feed Content" "Attached is your RSS feed content." (output_filename a)
      (after_pdf w (map (section_of w) (selected a parsed)) (output_filename a)
         (with_stdout s (map processing_line (selected a parsed)))).
Proof.
  intros Hparse Hne Hcred. rewrite (main_pipeline _ _ _ _ Hparse Hne).
  next (convert_to_pdf_returns _ _ _ _).
  rewrite (credentials_deliver _ _ _ _ Hcred). reflexivity.
Qed.

Lemma after_pdf_failed w articles path s msg :
  pdfkit_from_string w (pdf_html articles) path = Some msg ->
  after_pdf w articles path s = with_stdout s ["Error creating PDF: " ++ msg].
Proof. intros H. unfold after_pdf. rewrite H. reflexivity. Qed.

Lemma after_pdf_trace w articles path s :
  smtp_trace (after_pdf w articles path s) = smtp_trace s.
Proof. unfold after_pdf. destruct (pdfkit_from_string w _ _); reflexivity. Qed.

(** X3.  When the conversion fails, credentials are given and no file of
    the output name is on disk, [main] does not return: opening the
    attachment raises [FileNotFoundError], after the converter's error was
    printed and before any SMTP call; the exit status is 1. *)
Theorem failed_conversion_without_file_raises (w : World) (a : args) (s : sys)
    (parsed : list article) (email password msg : string) :
  parse_rss_feed w (rss_url a) = Ret parsed ->
  parsed <> [] ->
  credentials a = Some (email, password) ->
  pdfkit_from_string w (rendered_html w a parsed) (output_filename a) = Some msg ->
  files s !! output_filename a = None ->
  exists e s',
    main w a s = (Exc e, s')
    /\ exn_cls e = FileNotFoundError
    /\ exit_code (fst (main w a s)) = 1
    /\ smtp_trace s' = smtp_trace s
    /\ files s' = files s
    /\ last (stdout s') = Some ("Error creating PDF: " ++ msg).
Proof.
  intros Hparse Hne Hcred Hpdf Hf.
  assert (Hrun : main w a s
                 = (Exc (Exn FileNotFoundError
                           ("[Errno 2] No such file or directory: '"
                              ++ output_filename a ++ "'")),
                    with_stdout (with_stdout s (map processing_line (selected a parsed)))
                      ["Error creating PDF: " ++ msg])).
  { rewrite (main_with_credentials _ _ _ _ _ _ Hparse Hne Hcred).
    rewrite (after_pdf_failed _ _ _ _ _ Hpdf).
    unfold send_email. unfold bind at 1. unfold read_file. simpl files. rewrite Hf.
    reflexivity. }
  rewrite Hrun. do 2 eexists. split; [reflexivity|]. split; [reflexivity|].
  split; [reflexivity|]. split; [reflexivity|]. split; [reflexivity|].
  simpl. apply last_snoc.
Qed.

(** [failed_conversion_without_file_raises] on a concrete run. *)
Lemma failed_conversion_without_file_raises_witness :
  exists e s',
    main (Worlds.no_converter [Feeds.fresh]) with_credentials init = (Exc e, s')
    /\ exn_cls e = FileNotFoundError
    /\ smtp_trace s' = [].
Proof.
  destruct (failed_conversion_without_file_raises (Worlds.no_converter [Feeds.fresh])
              with_credentials init
              [{| title := "fresh"; link := "https://example.org/fresh" |}]
              "me@example.org" "secret" "No wkhtmltopdf executable found"
              eq_refl ltac:(discriminate) eq_refl eq_refl eq_refl)
    as (e & s' & Hrun & Hcls & _ & Htrace & _).
  exists e, s'. split; [exact Hrun|]. split; [exact Hcls | exact Htrace].
Defined.

End MainSteps.

(** ** What [main] of [rss_to_kindle.py] mails and what it leaves alone *)
Section MainDelivery.
Import Py Env RssToKindle.

(** X4.  When the conversion succeeds, credentials are given and the
    server accepts every call, [main] mails the PDF it has just rendered:
    one session, from the sender to the Kindle address, the attachment
    named after the output file, and the success line printed last. *)
Theorem rendered_pdf_is_mailed (w : World) (a : args) (s : sys)
    (parsed : list article) (email password : string) :
  parse_rss_feed w (rss_url a) = Ret parsed ->
  parsed <> [] ->
  credentials a = Some (email, password) ->
  let pdf := PdfOf (rendered_html w a parsed) in
  pdfkit_from_string w (rendered_html w a parsed) (output_filename a) = None ->
  Forall (accepts w) (kindle_session a email password pdf) ->
  exists s',
    main w a s = (Ret tt, s')
    /\ smtp_trace s' = (smtp_trace s ++ kindle_session a email password pdf)%list
    /\ files s' !! output_filename a = Some pdf
    /\ last (stdout s') = Some "Email sent successfully!".
Proof.
  intros Hparse Hne Hcred pdf Hpdf Hacc.
  rewrite (main_with_credentials _ _ _ _ _ _ Hparse Hne Hcred).
  set (st := after_pdf w _ _ _).
  assert (Hf : files st !! output_filename a = Some pdf).
  { unfold st, after_pdf. fold (rendered_html w a parsed). rewrite Hpdf.
    simpl. apply lookup_insert_eq. }
  rewrite (send_email_eq _ _ _ _ _ _ _ _ _ Hf). cbv zeta.
  fold (kindle_session a email password pdf).
  rewrite (attempted_all _ _ Hacc), (proj2 (refusal_none _ _) Hacc).
  eexists. split; [reflexivity|].
  split; [simpl; unfold st; rewrite after_pdf_trace; reflexivity|].
  split; [exact Hf|]. simpl. apply last_snoc.
Qed.

(** [rendered_pdf_is_mailed] on a concrete run. *)
Lemma rendered_pdf_is_mailed_witness :
  exists s',
    main (Worlds.friendly [Feeds.fresh] Pages.generic_page "text") with_credentials init
    = (Ret tt, s')
    /\ List.length (smtp_trace s') = 5%nat
    /\ last (stdout s') = Some "Email sent successfully!".
Proof.
  destruct (rendered_pdf_is_mailed
              (Worlds.friendly [Feeds.fresh] Pages.generic_page "text")
              with_credentials init
              [{| title := "fresh"; link := "https://example.org/fresh" |}]
              "me@example.org" "secret"
              eq_refl ltac:(discriminate) eq_refl eq_refl
              ltac:(repeat constructor))
    as (s' & Hrun & Htrace & _ & Hlast).
  exists s'. split; [exact Hrun|]. split; [rewrite Htrace; reflexivity | exact Hlast].
Defined.

(** X5.  When the conversion fails but a file of the output name was on
    disk before the run, [main] mails that older file: the error of the
    converter is printed, the file is left as it was, and the session
    carries it as the attachment. *)
Theorem stale_file_is_mailed (w : World) (a : args) (s : sys)
    (parsed : list article) (email password msg : string) (old : document) :
  parse_rss_feed w (rss_url a) = Ret parsed ->
  parsed <> [] ->
  credentials a = Some (email, password) ->
  pdfkit_from_string w (rendered_html w a parsed) (output_filename a) = Some msg ->
  files s !! output_filename a = Some old ->
  Forall (accepts w) (kindle_session a email password old) ->
  exists s',
    main w a s = (Ret tt, s')
    /\ smtp_trace s' = (smtp_trace s ++ kindle_session a email password old)%list
    /\ files s' = files s
    /\ In ("Error creating PDF: " ++ msg) (stdout s')
    /\ last (stdout s') = Some "Email sent successfully!".
Proof.
  intros Hparse Hne Hcred Hpdf Hold Hacc.
  rewrite (main_with_credentials _ _ _ _ _ _ Hparse Hne Hcred).
  rewrite (after_pdf_failed _ _ _ _ _ Hpdf).
  assert (Hold' : files (with_stdout (with_stdout s (map processing_line (selected a parsed)))
                           ["Error creating PDF: " ++ msg]) !! output_filename a = Some old)
    by exact Hold.
  rewrite (send_email_eq _ _ _ _ _ _ _ _ _ Hold'). cbv zeta.
  fold (kindle_session a email password old).
  rewrite (attempted_all _ _ Hacc), (proj2 (refusal_none _ _) Hacc).
  eexists. split; [reflexivity|]. split; [reflexivity|]. split; [reflexivity|]. split.
  - simpl. apply in_or_app. left. apply in_or_app. right. left. reflexivity.
  - simpl. apply last_snoc.
Qed.

(** [stale_file_is_mailed] on a concrete run. *)
Lemma stale_file_is_mailed_witness :
  exists s',
    main (Worlds.no_converter [Feeds.fresh]) with_credentials
      (on_disk "rss_feed.pdf" (Blob "yesterday")) = (Ret tt, s')
    /\ In (SmtpSend (mail_of "me@example.org" "reader@kindle.com" "RSS Feed Content"
                       "Attached is your RSS feed content." "rss_feed.pdf"
                       (Blob "yesterday")))
          (smtp_trace s').
Proof.
  destruct (stale_file_is_mailed (Worlds.no_converter [Feeds.fresh]) with_credentials
              (on_disk "rss_feed.pdf" (Blob "yesterday"))
              [{| title := "fresh"; link := "https://example.org/fresh" |}]
              "me@example.org" "secret" "No wkhtmltopdf executable found" (Blob "yesterday")
              eq_refl ltac:(discriminate) eq_refl eq_refl eq_refl
              ltac:(repeat constructor))
    as (s' & Hrun & Htrace & _).
  exists s'. split; [exact Hrun|]. rewrite Htrace.
  right. right. right. left. reflexivity.
Defined.

(** X6.  Whatever happens, a run of [main] changes no file but the one
    named by the output option. *)
Theorem main_touches_only_output (w : World) (a : args) (s : sys) (path : string) :
  path <> output_filename a ->
  files (snd (main w a s)) !! path = files s !! path.
Proof.
  intros Hp.
  destruct (parse_rss_feed w (rss_url a)) as [parsed|e] eqn:Hparse.
  - destruct parsed as [|x l].
    + rewrite (main_empty_feed _ _ _ Hparse). reflexivity.
    + assert (Hframe : forall st,
                files (after_pdf w (map (section_of w) (selected a (x :: l)))
                         (output_filename a) st) !! path = files st !! path).
      { intros st. unfold after_pdf. destruct (pdfkit_from_string w _ _); simpl.
        - reflexivity.
        - apply lookup_insert_ne. congruence. }
      destruct (credentials a) as [[email password]|] eqn:Hcred.
      * rewrite (main_with_credentials _ _ _ _ _ _ Hparse ltac:(discriminate) Hcred).
        set (st := after_pdf w _ _ _).
        destruct (files st !! output_filename a) as [d|] eqn:Hf.
        -- rewrite (send_email_eq _ _ _ _ _ _ _ _ _ Hf). simpl.
           unfold st. rewrite Hframe. reflexivity.
        -- destruct (send_email_no_file w email password (kindle_email a)
                       "RSS Feed Content" "Attached is your RSS feed content."
                       _ st Hf) as (e & ->).
           simpl. unfold st. rewrite Hframe. reflexivity.
      * rewrite (main_pipeline _ _ _ _ Hparse) by discriminate.
        next (convert_to_pdf_returns _ _ _ _).
        rewrite (has_credentials_false a (credentials_none a Hcred)), print_with_stdout.
        simpl. rewrite Hframe. reflexivity.
  - rewrite (main_broken_feed _ _ _ _ Hparse). reflexivity.
Qed.

(** [main_touches_only_output] on a concrete run. *)
Lemma main_touches_only_output_witness :
  files (snd (main (Worlds.friendly [Feeds.fresh] Pages.generic_page "text")
                with_credentials (on_disk "notes.txt" (Blob "mine")))) !! "notes.txt"
  = Some (Blob "mine").
Proof.
  rewrite (main_touches_only_output _ _ _ "notes.txt"); [reflexivity | discriminate].
Defined.

End MainDelivery.

(** ** Strings *)
Section Strings.
Import Py.

Lemma str_app_nil_r (s : string) : s ++ EmptyString = s.
Proof.
  induction s as [|c s IH]; [reflexivity|].
  rewrite string_app_cons, IH. reflexivity.
Qed.

Lemma str_app_assoc (s t u : string) : (s ++ t) ++ u = s ++ t ++ u.
Proof.
  induction s as [|c s IH]; [reflexivity|].
  rewrite !string_app_cons, IH. reflexivity.
Qed.

Lemma replace_from_cons old new c s :
  replace_from old new O (String c s)
  = if startswith old (String c s)
    then new ++ replace_from old new (Nat.pred (String.length old)) s
    else String c (replace_from old new O s).
Proof. reflexivity. Qed.

Lemma occurs_cons old c s :
  occurs old (String c s) = false ->
  startswith old (String c s) = false /\ occurs old s = false.
Proof. simpl. intros H. apply orb_false_iff in H. exact H. Qed.

(** A stretch without backslash-n is copied, as long as it does not end
    in a backslash that an [n] follows. *)
Lemma replace_backslash_n_free new p rest :
  occurs lit_backslash_n p = false ->
  not_starting_with "n" rest ->
  replace_from lit_backslash_n new O (p ++ rest)
  = p ++ replace_from lit_backslash_n new O rest.
Proof.
  intros Hp Hrest. induction p as [|c p IH]; [reflexivity|].
  apply occurs_cons in Hp. destruct Hp as [Hc Hp].
  rewrite !string_app_cons, replace_from_cons.
  replace (startswith lit_backslash_n (String c (p ++ rest))) with false.
  - rewrite (IH Hp). reflexivity.
  - symmetry. unfold lit_backslash_n in *.
    cbn [startswith] in *.
    destruct (Ascii.eqb BACKSLASH c); [|reflexivity].
    destruct p as [|b p].
    + change (EmptyString ++ rest) with rest.
      destruct rest as [|b rest]; [reflexivity|].
      simpl in Hrest. destruct (Ascii.eqb_spec "n" b); [congruence | reflexivity].
    + rewrite string_app_cons.
      destruct (Ascii.eqb "n" b); [discriminate | reflexivity].
Qed.

Lemma replace_backslash_n_sep new rest :
  replace_from lit_backslash_n new O (lit_backslash_n ++ rest)
  = new ++ replace_from lit_backslash_n new O rest.
Proof. reflexivity. Qed.

(** Joining with backslash-n and then replacing backslash-n is joining with
    the replacement, when no piece holds a backslash-n of its own. *)
Lemma replace_join_backslash_n new (pieces : list string) :
  Forall (fun p => occurs lit_backslash_n p = false) pieces ->
  replace lit_backslash_n new (join lit_backslash_n pieces) = join new pieces.
Proof.
  change (replace lit_backslash_n new) with (replace_from lit_backslash_n new O).
  induction 1 as [|p rest Hp Hrest IH]; [reflexivity|].
  destruct rest as [|q rest].
  - simpl. rewrite <- (str_app_nil_r p) at 1.
    rewrite replace_backslash_n_free by (exact Hp || exact I).
    simpl. apply str_app_nil_r.
  - change (join lit_backslash_n (p :: q :: rest))
      with (p ++ lit_backslash_n ++ join lit_backslash_n (q :: rest)).
    change (join new (p :: q :: rest)) with (p ++ new ++ join new (q :: rest)).
    rewrite replace_backslash_n_free; [|exact Hp|simpl; discriminate].
    rewrite replace_backslash_n_sep, IH. reflexivity.
Qed.

(** The same for the newline, which is one character. *)
Lemma replace_newline_free new p rest :
  occurs lit_newline p = false ->
  replace_from lit_newline new O (p ++ rest) = p ++ replace_from lit_newline new O rest.
Proof.
  intros Hp. induction p as [|c p IH]; [reflexivity|].
  apply occurs_cons in Hp. destruct Hp as [Hc Hp].
  rewrite !string_app_cons, replace_from_cons.
  replace (startswith lit_newline (String c (p ++ rest))) with false
    by (symmetry; exact Hc).
  rewrite (IH Hp). reflexivity.
Qed.

Lemma replace_join_newline new (lines : list string) :
  Forall (fun l => occurs lit_newline l = false) lines ->
  replace lit_newline new (join lit_newline lines) = join new lines.
Proof.
  change (replace lit_newline new) with (replace_from lit_newline new O).
  induction 1 as [|p rest Hp Hrest IH]; [reflexivity|].
  destruct rest as [|q rest].
  - simpl. rewrite <- (str_app_nil_r p) at 1.
    rewrite replace_newline_free by exact Hp.
    simpl. apply str_app_nil_r.
  - change (join lit_newline (p :: q :: rest))
      with (p ++ lit_newline ++ join lit_newline (q :: rest)).
    change (join new (p :: q :: rest)) with (p ++ new ++ join new (q :: rest)).
    rewrite replace_newline_free by exact Hp.
    change (replace_from lit_newline new 0 (lit_newline ++ join lit_newline (q :: rest)))
      with (new ++ replace_from lit_newline new 0 (join lit_newline (q :: rest))).
    rewrite IH. reflexivity.
Qed.

End Strings.

(** ** From the page to the PDF *)
Section Rendering.
Import Py Env Soup RssToKindle.

Lemma extract_from_chosen soup :
  extract_from soup
  = match chosen_container soup with
    | Some container => get_text lit_backslash_n container
    | None => "Could not extract article content."
    end.
Proof.
  unfold extract_from, chosen_container.
  destruct (find (div_with_class "post-body") soup); reflexivity.
Qed.

(** X7.  The loop of [main] undoes the separator of the extractor: when
    no string of the chosen container holds a backslash followed by [n],
    the content of the section is the trimmed, non-empty strings of the
    container with [<br>] between them. *)
Theorem section_content_has_breaks (w : World) (article : article)
    (soup : list node) (container : node) :
  page_of w (link article) soup ->
  chosen_container soup = Some container ->
  Forall (fun p => occurs lit_backslash_n p = false) (stripped_strings container) ->
  wc_content (section_of w article) = join "<br>" (stripped_strings container).
Proof.
  intros Hpage Hc Hfree. unfold section_of. simpl.
  rewrite (extract_page _ _ _ Hpage), extract_from_chosen, Hc.
  unfold get_text. apply replace_join_backslash_n. exact Hfree.
Qed.

(** [section_content_has_breaks] on a concrete run. *)
Lemma section_content_has_breaks_witness :
  wc_content (section_of (Pages.serving Pages.generic_page)
                {| title := "t"; link := "u" |})
  = "Hello<br>world".
Proof.
  rewrite (section_content_has_breaks (Pages.serving Pages.generic_page)
             {| title := "t"; link := "u" |} Pages.generic_page Pages.the_article).
  - reflexivity.
  - eexists. split; [reflexivity|]. split; [left; simpl; lia | reflexivity].
  - reflexivity.
  - repeat constructor.
Defined.

Lemma pdf_html_fold (l : list article_with_content) (acc : string) :
  fold_left
    (fun html article =>
       html ++ "<h1>" ++ wc_title article ++ "</h1>"
            ++ "<div>" ++ wc_content article ++ "</div>"
            ++ "<hr>")
    l acc
  = acc ++ concat_strings (map section_html l).
Proof.
  revert acc. induction l as [|x l IH]; intros acc; simpl.
  - symmetry. apply str_app_nil_r.
  - rewrite IH. fold (section_html x). apply str_app_assoc.
Qed.

(** X8.  The HTML given to the converter is the fixed head, then one block
    [<h1>title</h1><div>content</div><hr>] per article, in the order of the
    list, then the fixed tail; title and content are copied as they are.
    Rendering two lists one after the other gives the blocks of the first
    followed by the blocks of the second. *)
Theorem pdf_html_is_blocks_in_order :
  (forall articles,
      pdf_html articles
      = "<html><head><meta charset='utf-8'></head><body>"
        ++ concat_strings (map section_html articles) ++ "</body></html>")
  /\ (forall first second,
        concat_strings (map section_html (first ++ second))
        = concat_strings (map section_html first)
          ++ concat_strings (map section_html second))
  /\ pdf_html [] = "<html><head><meta charset='utf-8'></head><body></body></html>".
Proof.
  split; [|split].
  - intros articles. unfold pdf_html. rewrite pdf_html_fold. apply str_app_assoc.
  - intros first second. induction first as [|x l IH]; [reflexivity|].
    simpl. rewrite IH. symmetry. apply str_app_assoc.
  - reflexivity.
Qed.

End Rendering.

(** ** The feed of [rss_to_kindle.py] *)
Section Parsing.
Import Py Env RssToKindle.

Lemma parse_entries_ok (entries : list entry) (parsed : list article) :
  res_map
    (fun entry =>
       res_bind (getattr "title" (Env.title entry)) (fun t =>
       res_bind (getattr "link" (Env.link entry)) (fun l =>
       Ret {| title := t; link := l |})))
    entries = Ret parsed
  <-> map article_fields parsed = map entry_fields entries.
Proof.
  revert parsed. induction entries as [|e entries IH]; intros parsed; simpl.
  - split.
    + intros [= <-]. reflexivity.
    + destruct parsed; [reflexivity | discriminate].
  - unfold entry_fields at 1.
    destruct (Env.title e) as [t|], (Env.link e) as [l|]; simpl.
    + destruct (res_map _ entries) as [rest|err] eqn:Hrest; simpl.
      * split.
        -- intros [= <-]. simpl. f_equal. apply IH. reflexivity.
        -- destruct parsed as [|[t' l'] parsed]; [discriminate|].
           unfold article_fields at 1. simpl. intros [= -> -> H].
           apply IH in H. congruence.
      * split; [discriminate|].
        destruct parsed as [|[t' l'] parsed]; [discriminate|].
        simpl. intros [= _ _ H]. apply IH in H. discriminate.
    + split; [discriminate|]. destruct parsed; simpl; [discriminate|].
      unfold article_fields at 1. intros H. discriminate.
    + split; [discriminate|]. destruct parsed; simpl; [discriminate|].
      unfold article_fields at 1. intros H. discriminate.
    + split; [discriminate|]. destruct parsed; simpl; [discriminate|].
      unfold article_fields at 1. intros H. discriminate.
Qed.

Lemma parse_entries_exc (entries : list entry) (err : pyexn) :
  res_map
    (fun entry =>
       res_bind (getattr "title" (Env.title entry)) (fun t =>
       res_bind (getattr "link" (Env.link entry)) (fun l =>
       Ret {| title := t; link := l |})))
    entries = Exc err ->
  exn_cls err = AttributeError /\ Exists incomplete entries.
Proof.
  induction entries as [|e entries IH]; simpl; [discriminate|].
  unfold incomplete.
  destruct (Env.title e) as [t|] eqn:Ht, (Env.link e) as [l|] eqn:Hl; simpl.
  - destruct (res_map _ entries) as [rest|err'] eqn:Hrest; simpl; [discriminate|].
    intros [= <-]. destruct (IH eq_refl) as [Hcls Hex]. split; [exact Hcls|].
    apply Exists_cons. right. exact Hex.
  - intros [= <-]. split; [reflexivity|]. apply Exists_cons. left. right. exact Hl.
  - intros [= <-]. split; [reflexivity|]. apply Exists_cons. left. left. exact Ht.
  - intros [= <-]. split; [reflexivity|]. apply Exists_cons. left. left. exact Ht.
Qed.

(** X9.  [parse_rss_feed] is all or nothing.  It returns exactly when
    every entry of the feed has a title and a link, and then returns one
    article per entry, in order, with that title and that link.  One entry
    without title or link, anywhere in the feed, makes it raise
    [AttributeError], and [main] then stops before printing or writing
    anything. *)
Theorem parse_rss_feed_all_or_nothing (w : World) (feed_url : string) :
  let entries := feedparser_parse w feed_url in
  (forall parsed,
      parse_rss_feed w feed_url = Ret parsed
      <-> map article_fields parsed = map entry_fields entries)
  /\ (forall err,
        parse_rss_feed w feed_url = Exc err ->
        exn_cls err = AttributeError /\ Exists incomplete entries)
  /\ (Exists incomplete entries ->
      exists err,
        parse_rss_feed w feed_url = Exc err /\
        forall a s, rss_url a = feed_url -> main w a s = (Exc err, s)).
Proof.
  intros entries. split; [|split].
  - intros parsed. apply parse_entries_ok.
  - intros err. apply parse_entries_exc.
  - intros Hex. destruct (parse_rss_feed w feed_url) as [parsed|err] eqn:Hp.
    + exfalso. apply parse_entries_ok in Hp. fold entries in Hp.
      clear -Hex Hp. revert parsed Hp.
      induction Hex as [e l He | e l _ IH]; intros [|a parsed]; simpl; try discriminate.
      * unfold article_fields, entry_fields. intros [= Ht Hl _].
        destruct He as [He | He]; congruence.
      * intros [= _ _ H]. exact (IH _ H).
    + exists err. split; [reflexivity|]. intros a s <-.
      apply main_broken_feed. exact Hp.
Qed.

(** X10.  A negative [--max_articles] is not a cap: [main] works on the
    feed without its last [-max_articles] articles (on none of them when
    the feed is that short), and still converts and delivers. *)
Theorem negative_limit_drops_last_articles (w : World) (a : args) (s : sys)
    (parsed : list article) :
  max_articles a < 0 ->
  parse_rss_feed w (rss_url a) = Ret parsed ->
  parsed <> [] ->
  let kept := firstn (List.length parsed - Z.to_nat (- max_articles a)) parsed in
  selected a parsed = kept
  /\ main w a s
     = (run convert_to_pdf w (map (section_of w) kept) (output_filename a);
        deliver w a)
         (with_stdout s (map processing_line kept)).
Proof.
  intros Hneg Hparse Hne kept.
  assert (Hsel : selected a parsed = kept).
  { unfold selected, slice_to, kept.
    replace (0 <=? max_articles a) with false by (symmetry; apply Z.leb_gt; exact Hneg).
    f_equal. lia. }
  split; [exact Hsel|].
  rewrite (main_pipeline _ _ _ _ Hparse Hne), Hsel. reflexivity.
Qed.

(** [negative_limit_drops_last_articles] on a concrete run. *)
Lemma negative_limit_drops_last_articles_witness :
  selected
    {| rss_url := "f"; kindle_email := "k"; sender_email := None;
       sender_password := None; output_filename := "o"; max_articles := -2 |}
    [{| title := "a"; link := "https://example.org/a" |};
     {| title := "b"; link := "https://example.org/b" |};
     {| title := "c"; link := "https://example.org/c" |}]
  = [{| title := "a"; link := "https://example.org/a" |}].
Proof.
  exact (proj1 (negative_limit_drops_last_articles
                  (Feeds.world [Feeds.item "a" None; Feeds.item "b" None;
                                Feeds.item "c" None])
                  {| rss_url := "f"; kindle_email := "k"; sender_email := None;
                     sender_password := None; output_filename := "o";
                     max_articles := -2 |}
                  init
                  [{| title := "a"; link := "https://example.org/a" |};
                   {| title := "b"; link := "https://example.org/b" |};
                   {| title := "c"; link := "https://example.org/c" |}]
                  ltac:(simpl; lia) eq_refl ltac:(discriminate))).
Defined.

End Parsing.

(** ** A run of [RSS_script.py], in full *)
Section Digest.
Import Py Env RSSScript.

Lemma sys_eq (s1 s2 : sys) :
  stdout s1 = stdout s2 -> files s1 = files s2 -> smtp_trace s1 = smtp_trace s2 ->
  s1 = s2.
Proof. destruct s1, s2. simpl. intros -> -> ->. reflexivity. Qed.

(** The whole of [main], for a cutoff date that exists: it stops at
    [write_epub] when the book cannot be written, and returns otherwise. *)
Lemma main_with_eq w cfg s cutoff :
  minus_days (now w) (days_old cfg) = Ret cutoff ->
  main_with w cfg s
  = match write_epub w (digest_file w) (digest_book w cfg cutoff) with
    | Some msg =>
        (Exc (Exn LibraryError msg), with_stdout s (lines_before_book w cfg cutoff))
    | None => (Ret tt, after_digest w cfg cutoff s)
    end.
Proof.
  intros Hc. unfold main_with.
  next_print. next_print. next (fetch_articles_eq _ _ _ _ _ _ Hc).
  next_print. next_print. next (extract_loop _ _ _ _).
  next_print. next_print. cbv zeta.
  rewrite !with_stdout_app.
  change (([] ++ map (extracted w)
             (flat_map (feed_articles w cutoff (max_articles_per_feed cfg)) (feeds cfg)))%list)
    with (read_articles w cfg cutoff).
  fold (digest_file w).
  match goal with
  | |- bind _ _ (with_stdout s ?lines) = _ =>
      change lines with (lines_before_book w cfg cutoff)
  end.
  pose proof (create_epub_eq w (map Some (read_articles w cfg cutoff)) (digest_file w)
                (with_stdout s (lines_before_book w cfg cutoff))) as Hce.
  cbv zeta in Hce. fold (digest_book w cfg cutoff) in Hce.
  destruct (write_epub w (digest_file w) (digest_book w cfg cutoff)) as [msg|] eqn:Hw.
  - rewrite (bind_exc _ _ _ _ _ Hce). reflexivity.
  - next Hce. next_print.
    match goal with
    | |- bind (send_to_kindle w ?path cfg) _ ?st = _ =>
        assert (Hf : files st !! path = Some (EpubOf (digest_book w cfg cutoff)))
          by (cbn [files with_stdout]; apply lookup_insert_eq);
        rewrite (bind_ok _ _ _ _ _ (send_to_kindle_eq w path cfg st _ Hf))
    end.
    next_print. rewrite print_with_stdout, !with_stdout_app. f_equal.
    apply sys_eq; unfold after_digest, with_stdout, with_calls, delivery_line;
      cbn [stdout files smtp_trace].
    + rewrite <- !app_assoc. reflexivity.
    + reflexivity.
    + reflexivity.
Qed.

End Digest.

(** ** The feed reader of [RSS_script.py], further *)
Section Fetching.
Import Py Env RSSScript.

(** X11.  Whatever the feeds hold, every article that [fetch_articles]
    returns is dated at or after the cutoff [now - days_old], has no content
    and no authors yet, and carries the name of one of the feeds it was
    asked to read; the call prints, and touches neither the files nor the
    SMTP session. *)
Theorem fetched_articles_are_recent (w : World) (feeds : list Feed.t)
    (max_articles days_old : Z) (s s' : sys) (arts : list article) :
  fetch_articles w feeds max_articles days_old s = (Ret arts, s') ->
  (forall a, In a arts ->
     now w - days_old * US_PER_DAY <= date a
     /\ content a = None /\ authors a = None
     /\ exists feed, In feed feeds /\ feed_name a = Feed.name feed)
  /\ files s' = files s
  /\ smtp_trace s' = smtp_trace s.
Proof.
  intros Hrun.
  destruct (minus_days (now w) days_old) as [cutoff|e] eqn:Hc.
  - rewrite (fetch_articles_eq _ _ _ _ _ _ Hc) in Hrun. injection Hrun as <- <-.
    split; [|split; reflexivity].
    intros a Ha. apply in_flat_map in Ha. destruct Ha as (feed & Hfeed & Ha).
    apply in_flat_map in Ha. destruct Ha as (en & _ & Ha).
    apply in_accepted in Ha. destruct Ha as (d & t & l & _ & Hle & _ & _ & ->).
    simpl. rewrite <- (minus_days_value _ _ _ Hc). eauto 6.
  - rewrite (fetch_articles_overflow _ _ _ _ _ _ Hc) in Hrun. discriminate.
Qed.

(** [fetched_articles_are_recent] on a concrete run. *)
Lemma fetched_articles_are_recent_witness :
  List.Forall
    (fun a => now (Feeds.world Feeds.five) - 1 * US_PER_DAY <= date a)
    (match fst (fetch_articles (Feeds.world Feeds.five) [Feeds.tech] 5 1 init) with
     | Ret arts => arts
     | Exc _ => []
     end).
Proof.
  apply List.Forall_forall. intros a Ha.
  pose proof (fetch_articles_eq (Feeds.world Feeds.five) [Feeds.tech] 5 1
                (Feeds.noon - 1 * US_PER_DAY) init eq_refl) as Hrun.
  rewrite Hrun in Ha.
  exact (proj1 (proj1 (fetched_articles_are_recent _ _ _ _ _ _ _ Hrun) a Ha)).
Defined.

(** X12.  Reading a list of feeds is reading its parts one after the
    other: the articles of the first part come first, in order, then those
    of the second part, read from the state the first part left. *)
Theorem fetch_articles_feed_by_feed (w : World) (first second : list Feed.t)
    (max_articles days_old : Z) (cutoff : datetime) (s : sys) :
  minus_days (now w) days_old = Ret cutoff ->
  exists arts1 s1 arts2 s2,
    fetch_articles w first max_articles days_old s = (Ret arts1, s1)
    /\ fetch_articles w second max_articles days_old s1 = (Ret arts2, s2)
    /\ fetch_articles w (first ++ second) max_articles days_old s
       = (Ret (arts1 ++ arts2)%list, s2).
Proof.
  intros Hc.
  exists (flat_map (feed_articles w cutoff max_articles) first),
         (with_stdout s (flat_map (feed_log w cutoff max_articles) first)),
         (flat_map (feed_articles w cutoff max_articles) second),
         (with_stdout (with_stdout s (flat_map (feed_log w cutoff max_articles) first))
            (flat_map (feed_log w cutoff max_articles) second)).
  rewrite !(fetch_articles_eq _ _ _ _ _ _ Hc).
  split; [reflexivity|]. split; [reflexivity|].
  rewrite !flat_map_app, with_stdout_app. reflexivity.
Qed.

(** [fetch_articles_feed_by_feed] on a concrete run. *)
Lemma fetch_articles_feed_by_feed_witness :
  exists arts1 arts2 s',
    fetch_articles (Feeds.world Feeds.five) ([Feeds.tech] ++ [Feeds.tech]) 2 1 init
    = (Ret (arts1 ++ arts2)%list, s')
    /\ map title arts1 = ["fresh"; "boundary"].
Proof.
  destruct (fetch_articles_feed_by_feed (Feeds.world Feeds.five) [Feeds.tech] [Feeds.tech]
              2 1 (Feeds.noon - 1 * US_PER_DAY) init eq_refl)
    as (arts1 & s1 & arts2 & s2 & H1 & H2 & H12).
  exists arts1, arts2, s2. split; [exact H12|].
  pose proof (f_equal fst H1) as E1. vm_compute in E1. injection E1 as <-.
  reflexivity.
Defined.

End Fetching.

(** ** Where a run of [RSS_script.py] stops *)
Section DigestStops.
Import Py Env RSSScript.

Lemma minus_days_exc now days :
  unrepresentable now days <->
  exists e, minus_days now days = Exc e /\ exn_cls e = OverflowError.
Proof.
  unfold unrepresentable, minus_days.
  destruct ((-999999999 <=? days) && (days <=? 999999999)) eqn:Hd; simpl.
  - apply andb_true_iff in Hd. destruct Hd as [H1 H2].
    apply Z.leb_le in H1. apply Z.leb_le in H2.
    destruct ((DATETIME_MIN <=? now - days * US_PER_DAY)
              && (now - days * US_PER_DAY <=? DATETIME_MAX)) eqn:Ht.
    + apply andb_true_iff in Ht. destruct Ht as [H3 H4].
      apply Z.leb_le in H3. apply Z.leb_le in H4.
      split; [lia | intros (e & He & _); discriminate].
    + split; [eauto|]. intros _. apply andb_false_iff in Ht.
      destruct Ht as [Ht | Ht]; [apply Z.leb_gt in Ht | apply Z.leb_gt in Ht]; lia.
  - split; [eauto|]. intros _. apply andb_false_iff in Hd.
    destruct Hd as [Hd | Hd]; [apply Z.leb_gt in Hd | apply Z.leb_gt in Hd]; lia.
Qed.

Lemma main_with_overflow w cfg s e :
  minus_days (now w) (days_old cfg) = Exc e ->
  main_with w cfg s
  = (Exc e, with_stdout s [banner_line; "Step 1: Fetching RSS feeds..."]).
Proof.
  intros Hc. unfold main_with. next_print. next_print.
  rewrite (bind_exc _ _ _ _ _ (fetch_articles_overflow _ _ _ _ _ _ Hc)).
  rewrite with_stdout_app. reflexivity.
Qed.

(** X13.  [main] raises [OverflowError] exactly when the cutoff date cannot
    be computed, that is when [days_old] is beyond what [timedelta] accepts
    or the cutoff falls outside the years 1 to 9999.  It then stops after the
    first two lines: no feed is read, no file written, no mail sent. *)
Theorem unrepresentable_cutoff_stops_the_run (w : World) (cfg : config) (s : sys) :
  unrepresentable (now w) (days_old cfg) <->
  exists e,
    exn_cls e = OverflowError /\
    main_with w cfg s
    = (Exc e, with_stdout s [banner_line; "Step 1: Fetching RSS feeds..."]).
Proof.
  split.
  - intros H. apply minus_days_exc in H. destruct H as (e & He & Hcls).
    exists e. split; [exact Hcls | apply main_with_overflow; exact He].
  - intros (e & Hcls & Hrun). apply minus_days_exc.
    destruct (minus_days (now w) (days_old cfg)) as [cutoff|e'] eqn:Hc.
    + rewrite (main_with_eq _ _ _ _ Hc) in Hrun.
      destruct (write_epub w _ _); [|discriminate].
      injection Hrun as <- _. discriminate.
    + rewrite (main_with_overflow _ _ _ _ Hc) in Hrun. injection Hrun as ->. eauto.
Qed.

(** [unrepresentable_cutoff_stops_the_run] on a concrete run. *)
Lemma unrepresentable_cutoff_stops_the_run_witness :
  exists e,
    exn_cls e = OverflowError /\
    main_with (Feeds.world Feeds.five)
      {| feeds := []; kindle_email := "k"; smtp := smtp CONFIG;
         max_articles_per_feed := 5; days_old := 1000000000 |} init
    = (Exc e, with_stdout init [banner_line; "Step 1: Fetching RSS feeds..."]).
Proof.
  apply (proj1 (unrepresentable_cutoff_stops_the_run (Feeds.world Feeds.five)
                  {| feeds := []; kindle_email := "k"; smtp := smtp CONFIG;
                     max_articles_per_feed := 5; days_old := 1000000000 |} init)).
  right. left. simpl. lia.
Defined.

(** X14.  When [write_epub] raises, [main] stops there with its
    exception: the lines of the first three steps are printed, nothing is
    on disk that was not before, and no SMTP call is made. *)
Theorem failed_write_stops_before_delivery (w : World) (cfg : config) (s : sys)
    (cutoff : datetime) (msg : string) :
  minus_days (now w) (days_old cfg) = Ret cutoff ->
  write_epub w (digest_file w) (digest_book w cfg cutoff) = Some msg ->
  exists s',
    main_with w cfg s = (Exc (Exn LibraryError msg), s')
    /\ exit_code (fst (main_with w cfg s)) = 1
    /\ files s' = files s
    /\ smtp_trace s' = smtp_trace s
    /\ last (stdout s') = Some "Step 3: Generating EPUB...".
Proof.
  intros Hc Hw. rewrite (main_with_eq _ _ _ _ Hc), Hw.
  eexists. split; [reflexivity|]. split; [reflexivity|]. split; [reflexivity|].
  split; [reflexivity|]. simpl. unfold lines_before_book.
  rewrite !app_assoc, last_app. reflexivity.
Qed.

(** [failed_write_stops_before_delivery] on a concrete run. *)
Lemma failed_write_stops_before_delivery_witness :
  exists s',
    main_with (Worlds.no_converter Feeds.five) CONFIG init
    = (Exc (Exn LibraryError "Permission denied"), s')
    /\ smtp_trace s' = [].
Proof.
  destruct (failed_write_stops_before_delivery (Worlds.no_converter Feeds.five) CONFIG init
              (Feeds.noon - 1 * US_PER_DAY) "Permission denied" eq_refl eq_refl)
    as (s' & Hrun & _ & _ & Htrace & _).
  exists s'. split; [exact Hrun | exact Htrace].
Defined.

(** X15.  A run of [main] changes no file but the digest it writes. *)
Theorem main_with_touches_only_digest (w : World) (cfg : config) (s : sys)
    (path : string) :
  path <> digest_file w ->
  files (snd (main_with w cfg s)) !! path = files s !! path.
Proof.
  intros Hp. destruct (minus_days (now w) (days_old cfg)) as [cutoff|e] eqn:Hc.
  - rewrite (main_with_eq _ _ _ _ Hc). destruct (write_epub w _ _); simpl.
    + reflexivity.
    + apply lookup_insert_ne. congruence.
  - rewrite (main_with_overflow _ _ _ _ Hc). reflexivity.
Qed.

(** [main_with_touches_only_digest] on a concrete run. *)
Lemma main_with_touches_only_digest_witness :
  files (snd (main_with (Feeds.world Feeds.five) CONFIG
                (on_disk "notes.txt" (Blob "mine")))) !! "notes.txt"
  = Some (Blob "mine").
Proof.
  rewrite (main_with_touches_only_digest _ _ _ "notes.txt"); [reflexivity | discriminate].
Defined.

(** X16.  When the book is written and the server accepts every call,
    [main] mails the book it has just written: one session with the host,
    port and account of the configuration, from that account to the Kindle
    address, and the book on disk is the attachment. *)
Theorem written_book_is_mailed (w : World) (cfg : config) (s : sys) (cutoff : datetime) :
  minus_days (now w) (days_old cfg) = Ret cutoff ->
  let book := EpubOf (digest_book w cfg cutoff) in
  write_epub w (digest_file w) (digest_book w cfg cutoff) = None ->
  Forall (accepts w) (digest_session w cfg (digest_file w) book) ->
  exists s',
    main_with w cfg s = (Ret tt, s')
    /\ files s' !! digest_file w = Some book
    /\ smtp_trace s' = (smtp_trace s ++ digest_session w cfg (digest_file w) book)%list
    /\ In ("Email sent to " ++ kindle_email cfg) (stdout s').
Proof.
  intros Hc book Hw Hacc. rewrite (main_with_eq _ _ _ _ Hc), Hw.
  eexists. split; [reflexivity|]. unfold after_digest. cbn [files smtp_trace stdout].
  fold book. split; [apply lookup_insert_eq|].
  rewrite (attempted_all _ _ Hacc). split; [reflexivity|].
  unfold delivery_line. rewrite (proj2 (refusal_none _ _) Hacc).
  apply in_or_app. right. apply in_or_app. right.
  right. right. left. reflexivity.
Qed.

(** [written_book_is_mailed] on a concrete run. *)
Lemma written_book_is_mailed_witness :
  exists s',
    main_with (Worlds.friendly Feeds.five [] "Some text.") CONFIG init = (Ret tt, s')
    /\ List.length (smtp_trace s') = 5%nat.
Proof.
  destruct (written_book_is_mailed (Worlds.friendly Feeds.five [] "Some text.") CONFIG init
              (Feeds.noon - 1 * US_PER_DAY) eq_refl eq_refl ltac:(repeat constructor))
    as (s' & Hrun & _ & Htrace & _).
  exists s'. split; [exact Hrun|]. rewrite Htrace. reflexivity.
Defined.

End DigestStops.

(** ** The chapters of the digest *)
Section Chapters.
Import Py Env RSSScript.

Lemma chapters_titles w (l : list article) (k : nat) :
  map ch_title
    (flat_map (chapters_of w) (combine (seq k (List.length l)) (map Some l)))
  = map title (List.filter with_text l).
Proof.
  revert k. induction l as [|a l IH]; intros k; [reflexivity|].
  simpl. rewrite map_app, IH. unfold chapters_of, with_text, truthy_opt_str. simpl.
  destruct (content a) as [body|]; [|reflexivity].
  destruct (truthy_str body); reflexivity.
Qed.

Lemma build_chapters_titles w (l : list article) :
  map ch_title (build_chapters w (map Some l)) = map title (List.filter with_text l).
Proof.
  rewrite build_chapters_eq. unfold enumerate. rewrite length_map.
  apply chapters_titles.
Qed.

(** X17.  When the book is written, it has one chapter for each fetched
    article whose text could be read and is not empty, in the order in
    which the articles were fetched, under the title of the article; an
    article whose download or parse fails, or whose text is empty, has no
    chapter.  The number printed at step 2 is the number of chapters. *)
Theorem digest_has_one_chapter_per_read_article (w : World) (cfg : config) (s : sys)
    (cutoff : datetime) :
  minus_days (now w) (days_old cfg) = Ret cutoff ->
  write_epub w (digest_file w) (digest_book w cfg cutoff) = None ->
  let book := digest_book w cfg cutoff in
  exists s',
    main_with w cfg s = (Ret tt, s')
    /\ files s' !! digest_file w = Some (EpubOf book)
    /\ map ch_title (toc book)
       = map title (List.filter with_text (map (extracted w) (fetched w cfg cutoff)))
    /\ In (extracted_line (List.length (toc book))) (stdout s')
    /\ (forall a, In a (fetched w cfg cutoff) ->
          with_text (extracted w a) = true
          <-> exists text auth,
                newspaper w (url a) = inl (text, auth) /\ text <> EmptyString).
Proof.
  intros Hc Hw book. rewrite (main_with_eq _ _ _ _ Hc), Hw.
  eexists. split; [reflexivity|].
  assert (Htitles : map ch_title (toc book)
                    = map title (List.filter with_text (read_articles w cfg cutoff))).
  { unfold book, digest_book. simpl. apply build_chapters_titles. }
  split; [unfold after_digest; cbn [files]; apply lookup_insert_eq|].
  split; [exact Htitles|]. split.
  - unfold after_digest. cbn [stdout].
    apply in_or_app. right. apply in_or_app. left. unfold lines_before_book.
    apply in_or_app. right. apply in_or_app. right. apply in_or_app. right.
    apply in_or_app. right. left. f_equal.
    rewrite <- (length_map ch_title), Htitles, length_map. reflexivity.
  - intros a Ha. unfold fetched in Ha.
    apply in_flat_map in Ha. destruct Ha as (f & _ & Ha).
    apply in_flat_map in Ha. destruct Ha as (en & _ & Ha).
    apply in_accepted in Ha. destruct Ha as (d & t & l & _ & _ & _ & _ & ->).
    unfold with_text, extracted, truthy_opt_str. simpl.
    destruct (newspaper w l) as [[text auth]|e]; simpl.
    + destruct text; simpl.
      * split; [discriminate | intros (? & ? & [= <- <-] & H); congruence].
      * split; [intros _; do 2 eexists; split; [reflexivity | discriminate] | reflexivity].
    + split; [discriminate | intros (? & ? & H & _); discriminate].
Qed.

(** [digest_has_one_chapter_per_read_article] on a concrete run. *)
Lemma digest_has_one_chapter_per_read_article_witness :
  exists s' b,
    main_with (Worlds.friendly Feeds.five [] "Some text.") CONFIG init = (Ret tt, s')
    /\ files s' !! "digest_%Y%m%d.epub" = Some (EpubOf b)
    /\ map ch_title (toc b) = ["fresh"; "boundary"; "late"; "fresh"; "boundary"; "late"].
Proof.
  destruct (digest_has_one_chapter_per_read_article
              (Worlds.friendly Feeds.five [] "Some text.") CONFIG init
              (Feeds.noon - 1 * US_PER_DAY) eq_refl eq_refl)
    as (s' & Hrun & Hfile & Htitles & _).
  exists s', (digest_book (Worlds.friendly Feeds.five [] "Some text.") CONFIG
                (Feeds.noon - 1 * US_PER_DAY)).
  split; [exact Hrun|]. split; [exact Hfile|]. rewrite Htitles. reflexivity.
Defined.

Lemma chapters_files w (l : list (option article)) (k : nat) :
  let cs := flat_map (chapters_of w) (combine (seq k (List.length l)) l) in
  List.NoDup (map ch_file_name cs)
  /\ forall c, In c cs ->
       exists idx, (k <= idx < k + List.length l)%nat /\ ch_file_name c = chapter_file idx.
Proof.
  revert k. induction l as [|o l IH]; intros k; simpl.
  - split; [constructor | contradiction].
  - destruct (IH (S k)) as [Hnd Hidx].
    assert (Hrest : forall c,
              In c (flat_map (chapters_of w) (combine (seq (S k) (List.length l)) l)) ->
              exists idx, (k <= idx < k + S (List.length l))%nat /\
                          ch_file_name c = chapter_file idx).
    { intros c Hc. destruct (Hidx c Hc) as (idx & Hr & Hn). exists idx. split; [lia | exact Hn]. }
    unfold chapters_of at 1 3. simpl.
    destruct o as [a|]; [|split; [exact Hnd | exact Hrest]].
    destruct (content a) as [body|]; [|split; [exact Hnd | exact Hrest]].
    destruct (truthy_str body); [|split; [exact Hnd | exact Hrest]].
    simpl. split.
    + constructor; [|exact Hnd].
      intros Hin. apply in_map_iff in Hin. destruct Hin as (c & Hname & Hc).
      destruct (Hidx c Hc) as (idx & Hr & Hn). rewrite Hn in Hname.
      apply file_name_inj in Hname. lia.
    + intros c [<- | Hc]; [|exact (Hrest c Hc)].
      exists k. split; [lia | reflexivity].
Qed.

(** X18.  The chapters of a book have pairwise different file names, each
    numbered by the position of its article in the list given to
    [create_epub]: no chapter can overwrite another one. *)
Theorem chapter_files_are_distinct (w : World) (articles : list (option article)) :
  List.NoDup (map ch_file_name (build_chapters w articles))
  /\ forall c, In c (build_chapters w articles) ->
       exists idx, (idx < List.length articles)%nat /\ ch_file_name c = chapter_file idx.
Proof.
  rewrite build_chapters_eq. unfold enumerate.
  destruct (chapters_files w articles 0) as [Hnd Hidx]. split; [exact Hnd|].
  intros c Hc. destruct (Hidx c Hc) as (idx & Hr & Hn). exists idx. split; [lia | exact Hn].
Qed.

(** X19.  The book has no chapter exactly when no entry of the list is an
    article with a non-empty content; it is then still a book, with its
    metadata, its two navigation items and the navigation page as its only
    spine entry. *)
Theorem no_content_no_chapter (w : World) (articles : list (option article)) :
  (build_chapters w articles = [] <-> Forall (fun o => has_content o = false) articles)
  /\ (build_chapters w articles = [] ->
      let book := make_book w (build_chapters w articles) in
      items book = [ItemNcx; ItemNav] /\ spine book = [SpineNav] /\ toc book = []
      /\ book_authors book = ["RSS Aggregator"]).
Proof.
  split.
  - rewrite build_chapters_eq. unfold enumerate.
    generalize 0%nat. induction articles as [|o l IH]; intros k; simpl.
    + split; [constructor | reflexivity].
    + rewrite List.Forall_cons_iff, <- (IH (S k)).
      unfold chapters_of at 1. unfold has_content, truthy_opt_str. simpl.
      destruct o as [a|]; simpl; [|tauto].
      destruct (content a) as [body|]; simpl; [|tauto].
      destruct (truthy_str body); simpl; [|tauto].
      split; [discriminate | intros [H _]; discriminate].
  - intros ->. simpl. auto.
Qed.

(** X20.  The body of a chapter is cut at every newline: for a text made
    of lines joined by newlines, the [<div>] of the chapter holds the lines
    with [</p><p>] between them, below the heading, the source line and the
    date line. *)
Theorem chapter_body_breaks_at_newlines (w : World) (a : article) (lines : list string) :
  Forall (fun l => occurs lit_newline l = false) lines ->
  content_html w a (join lit_newline lines)
  = lit_newline ++ spaces 16 ++ "<h1>" ++ title a ++ "</h1>" ++
    lit_newline ++ spaces 16 ++ "<p><em>Source: " ++ feed_name a ++ "</em></p>" ++
    lit_newline ++ spaces 16 ++ "<p><em>Date: "
       ++ strftime w "%Y-%m-%d %H:%M" (date a) ++ "</em></p>" ++
    lit_newline ++ spaces 16 ++ "<hr/>" ++
    lit_newline ++ spaces 16 ++ "<div>" ++ join "</p><p>" lines ++ "</div>" ++
    lit_newline ++ spaces 12.
Proof.
  intros H. unfold content_html. rewrite (replace_join_newline _ _ H). reflexivity.
Qed.

(** [chapter_body_breaks_at_newlines] on a concrete run. *)
Lemma chapter_body_breaks_at_newlines_witness :
  content_html (Feeds.world [])
    {| title := "T"; url := "u"; feed_name := "F"; date := Feeds.noon;
       content := None; authors := None |}
    (join lit_newline ["one"; "two"])
  = lit_newline ++ spaces 16 ++ "<h1>T</h1>" ++
    lit_newline ++ spaces 16 ++ "<p><em>Source: F</em></p>" ++
    lit_newline ++ spaces 16 ++ "<p><em>Date: %Y-%m-%d %H:%M</em></p>" ++
    lit_newline ++ spaces 16 ++ "<hr/>" ++
    lit_newline ++ spaces 16 ++ "<div>one</p><p>two</div>" ++
    lit_newline ++ spaces 12.
Proof.
  rewrite (chapter_body_breaks_at_newlines (Feeds.world []) _ ["one"; "two"]
             ltac:(repeat constructor)).
  reflexivity.
Defined.

End Chapters.

(** ** Trimmed strings *)
Section Trimming.
Import Py Soup.







End Trimming.

